(* ===== verification/_CoqProject ===== *)
-Q . S2P
Prelude.v
PyDict.v
Quantity.v
BinaryGeneric.v
DDS.v
DDSObject.v
LinAlg.v
Fitter.v
FitStep.v
WidebandTests.v
PardictTest.v
