(* ===== verification/Prelude.v ===== *)
(** * A verification development of PINT's binary-orbit model hierarchy
      and of its generalized (wideband) fitter

    ** The program

    PINT is a pulsar-timing package.  The part of it verified here has two
    cooperating subsystems.

    - The binary orbit models.  [PSR_BINARY] (pint/models/
      stand_alone_psr_binaries/binary_generic.py) keeps a table of parameter
      defaults [param_default_value] (an insertion-ordered Python dict), the
      list [binary_params] of its keys, and the parameter values as
      attributes of the model object; [set_param_values] assigns every
      default to its attribute with [setattr].  [DDmodel] (DD_model.py)
      extends the table, and [DDSmodel] (src/src/pint/models/
      stand_alone_psr_binaries/DDS_model.py, the one model file of this
      repository) replaces the inclination parameter [SINI] by [SHAPMAX]:
      it deletes [SINI] from the defaults, turns [SINI] into a read-only
      Python property [1 - exp(-SHAPMAX)] whose setter only warns, and adds
      the derivative rules [d_SINI_d_SHAPMAX] and [d_SINI_d_par].
    - The fitter.  [WidebandTOAFitter] (pint/fitter.py, exercised by
      src/tests/test_widebandTOA_fitting.py) combines the TOA residuals and
      the DM residuals of one timing model, builds one design matrix with
      an [Offset] column and one column per free parameter, solves the
      least-squares problem and updates the free parameters.

    The fitter calls the model for residuals and derivatives; the model
    never calls the fitter.

    ** Files, in dependency order

    - [Prelude] (this file): the result monad [res] of the Python
      exceptions the code raises ([AttributeError], [KeyError],
      [TypeError], [UnitsError], [ValueError], [ConfigError],
      [LinAlgError]), its notations in [pint_scope], the tactics
      [res_simpl], [inv_res] and [decide_concrete], the hint databases
      [pint] and [pint_rw], Python's [str.upper] and generic list lemmas.
    - [PyDict] (Module [PyDict]): Python's insertion-ordered [dict] as an
      association list ([setitem], [update], [remove], [del] as [delitem]
      raising [KeyError], [keys], [get]), with the invariant [wf] that keys
      are distinct and its preservation by every operation.
    - [Quantity] (Module [Quantity]): astropy quantities as a value (a
      scalar or a numpy array of reals) and an optional unit, a unit being
      a map from base units to integer exponents ([None] is a bare number
      without [.unit]); [np.exp] (a [UnitsError] on a dimensioned
      argument), negation, [1 - q], [np.zeros], unit product and quotient,
      and the [.unit] attribute (an [AttributeError] on a bare number).
    - [BinaryGeneric] (Module [Binary]): the base classes [PSR_BINARY] and
      [DDmodel], modelled from the specification.  The object is a record
      [bstate] (default table, [binary_params], attribute dictionary, the
      epochs [t], the warnings emitted); a subclass is an instance of the
      class [BinaryVariant] giving its Python properties and methods.
      Attribute access [getattr]/[setattr] consults the class's properties
      first, as Python does, and [lookup_attr] is Python's [getattr] in
      full (property, then instance dict, then method, returning a value
      or a bound method [pyattr]); [set_param_values], [tt0] and the
      generic [derivative] fallback [derivative_of] are defined on top of
      it.  [tt0] follows [PSR_BINARY.get_tt0]: [None] when the object has
      no epochs, otherwise [(t * u.day - T0).to("second")] with numpy
      broadcasting of a length-1 operand and a [UnitsError] for a [T0] that
      is not a time; [py_len] is [len()] of it, raising on [None].
    - [DDS] (Module [DDS]): [DDSmodel] of DDS_model.py, line by line:
      [DDSmodel_init] ([__init__]), the property [SINI] ([SINI_get],
      [SINI_set]), [d_SINI_d_SHAPMAX] and [d_SINI_d_par] (its two [getattr]
      calls, its bare [except:] and the call [ko_func()]), and the instance
      [DDSmodel] of [BinaryVariant]; [DDS_initial_state] describes directly
      the object the constructor builds.
    - [DDSObject] (Module [DDSObject]): a [DDSmodel] object after
      construction as a state machine: the operations [dds_op] (assigning
      an attribute, calling [set_param_values()], giving epochs), one step
      [exec], a sequence [run], and the inductive [reachable] of the states
      [DDSmodel()] can lead to.
    - [LinAlg] (Module [LinAlg]): vectors and matrices of reals as lists,
      with the numpy operations the fitter uses.
    - [Fitter] (Module [Fitter]): the timing model seen by the fitter
      (parameters with values and a frozen flag), the interface
      [TimingPhysics] the fitter requires of the model (residuals, errors,
      derivatives, full covariance), TOA and DM residual objects, the
      combined residuals, [WidebandTOAFitter.__init__], [set_fitparams],
      [get_fitparams] and the combined design matrix; from the spec.
    - [FitStep] (Module [FitStep]): one generalized-least-squares step,
      [fit_toas] with its [maxiter] loop, against the interface [GLSSolver]
      whose laws state the normal equations and the [LinAlgError] of a
      singular system.
    - [WidebandTests] (Module [WidebandTests]): the assertions of
      test_widebandTOA_fitting.py, proved for every model satisfying the
      interfaces, with concrete instances ([empty_toas], [rowless_solver])
      that run the tests.
    - [PardictTest] (Module [PardictTest]): test_pardict.py, its bare
      [try]/[except:] around [get_model] and its [isinstance] assertion,
      against the interface [ModelLoading], with pytest's outcomes.

    ** What the theorems show

    - [DDS]: reading [SINI] gives [1 - exp(-SHAPMAX)], in the attribute's
      units, and writing it changes nothing but the warning log (C1, C2);
      [d_SINI_d_SHAPMAX] is not the derivative of [SINI] (C3: the code
      returns [-exp(SHAPMAX)], the derivative is [exp(-SHAPMAX)]);
      [d_SINI_d_par] returns a zero array with [len(self.tt0)] entries (one
      per epoch for a scalar [T0]) in the unit [1/unit(par)] for every
      parameter without a rule, and refines [derivative_of] (C4, C5) and
      raises exactly the errors of its branches, those of [tt0] and of
      [len(None)] included (C9).  From any prior state the constructor
      yields exactly [DDS_initial_state]: the DD state with [SHAPMAX]
      added, [SINI] deleted from the defaults but still listed in
      [binary_params], every default stored, no epochs and two warnings
      (C12); so a fresh model has no epochs and every derivative other
      than [SHAPMAX]'s raises (C10).  The [SINI] getter and
      [d_SINI_d_SHAPMAX] raise [AttributeError] without [SHAPMAX] and the
      [UnitsError] of [np.exp] for a dimensioned one (C11); the values the
      class returns have the shape and unit the code intends (C17); and
      with the default plain [SHAPMAX] the table entry for [SHAPMAX]
      returns [-exp(SHAPMAX)] and the one for [SINI] raises
      [AttributeError] (C20).
    - [DDSObject]: along every sequence of operations after construction
      the name, default table and parameter list are kept, [SINI] is never
      stored and [SHAPMAX] always is (C13); each assignment to [SINI] logs
      one warning and nothing else does (C14); [SINI] reads [1 - exp(-v)]
      for the last value [v] given to [SHAPMAX] (C15) and can only fail
      with the [UnitsError] of a dimensioned [SHAPMAX] (C16); and from any
      state, [set_param_values()] and epochs make every derivative of
      [SINI] computable (C18).
    - [WidebandTests]: the test assertions hold of the model: the
      design-matrix shape and labels for every well-formed model with the
      fitted parameters (C6), the DM residuals and their weighted RMS
      unchanged by a fit, with and without the full covariance, when they
      depend only on parameters not fitted, provided the solver accepts the
      problem (C7), and the initial fitter's data names and residual
      arguments (C8).
    - [PardictTest]: the session of [test_derived_params] succeeds exactly
      when [as_dict] returns a dict for every par file that loads, so also
      when none loads (C19).
    - [Fitter] and [FitStep] (library theorems): frozen parameters are
      unchanged by [fit_toas], the step applies the solver's correction to
      exactly the free parameters, a singular system propagates as
      [LinAlgError], the model invariant (distinct names, a value for each)
      is preserved, and [get_fitparams] after [set_fitparams] returns the
      requested parameters in model order.

    ** Bounds and fuel

    [fit_toas_iter] runs the fitter's [for i in range(maxiter)] loop on a
    natural-number [maxiter]; [fit_toas] uses the default [maxiter = 1].
    The theorems on the loop are proved for every [maxiter], so no bound
    is assumed.  No other definition uses fuel: every recursion is
    structural (on strings, lists and [maxiter]; [DDSObject.run] is a
    [fold_left]), so Rocq's guard checker proves each function total and no
    separate termination theorem is stated; [fit_toas_iter] returns after
    at most [maxiter] solver calls by construction.  Real arithmetic is
    exact ([R]); the code's float64 arithmetic is not modelled, so no
    theorem speaks of rounding (in float64, [1 - np.exp(-x)] is exactly
    [1.0] once [x] exceeds about 37), and no theorem states a property of
    [SINI] that only exact reals give.

    ** Not modelled

    The orbital delay formulas of DD and DDS (the binary delay itself:
    neither the repository nor the specification gives them), the
    numerical solver behind [GLSSolver] (an SVD, abstracted by its laws;
    no law promises that it returns, so the tests' theorems assume the
    solver accepts the problem), comparisons with TEMPO output, file I/O
    (par and tim files, [get_model] and [as_dict] being the interface
    [ModelLoading]), src/tests/test_clockcorr.py (it compares
    [ClockFile.evaluate], which is not in the repository and whose
    algorithm the specification excludes, with TEMPO2 clock files read
    from disk), observatories, and the astropy unit system beyond the unit
    bookkeeping the modelled lines perform (scaled dimensionless units are
    not represented; [seconds_per] knows the time units s, min, h, d and
    yr).  Python's warning filter, which by default shows a repeated
    warning from one code location once, is not modelled: the warning log
    counts the calls of [warnings.warn].  [lookup_attr] knows the
    properties and methods the class [DDSmodel] itself defines; the
    lower-case properties and methods of the base classes ([t], [tt0],
    ...) are not in its table, and [derivative_of] is the specification's
    [derivative_of], without the further dispatch of PINT's [prtl_der].
    [DDSObject] assigns quantities only.  The base classes and the fitter
    are not part of this repository: they are modelled from the
    specification and marked so in the manifest.
*)

From stdpp Require Export base list strings gmap.

Declare Scope pint_scope.
Delimit Scope pint_scope with pint.
Open Scope pint_scope.

(** ** Python exceptions and the result monad *)

(** The exceptions the modelled code raises or lets escape. *)
Inductive py_error :=
  | AttributeError (name : string)
  | KeyError (key : string)
  | TypeError (what : string)
  | UnitsError (what : string)
  | ValueError (what : string)
  | ConfigError (what : string)
  | LinAlgError (what : string).

#[export] Instance py_error_eq_dec : EqDecision py_error.
Proof. solve_decision. Defined.

(** A computation that returns a value or raises. *)
Inductive res (A : Type) :=
  | Ok (a : A)
  | Err (e : py_error).
Arguments Ok {A} a.
Arguments Err {A} e.

#[export] Instance res_ret : MRet res := λ A a, Ok a.
#[export] Instance res_bind : MBind res :=
  λ A B f r, match r with Ok a => f a | Err e => Err e end.
#[export] Instance res_fmap : FMap res :=
  λ A B f r, match r with Ok a => Ok (f a) | Err e => Err e end.

Definition is_ok {A} (r : res A) : bool :=
  match r with Ok _ => true | Err _ => false end.

Definition of_option {A} (e : py_error) (o : option A) : res A :=
  match o with Some a => Ok a | None => Err e end.

Notation "'raise' e" := (Err e) (at level 10) : pint_scope.

(** ** Generic lemmas on [res] *)

Lemma bind_Ok {A B} (a : A) (f : A → res B) : (Ok a ≫= f) = f a.
Proof. reflexivity. Qed.

Lemma bind_Err {A B} (e : py_error) (f : A → res B) : (Err e ≫= f) = Err e.
Proof. reflexivity. Qed.

Lemma bind_Ok_inv {A B} (r : res A) (f : A → res B) (b : B) :
  (r ≫= f) = Ok b → ∃ a, r = Ok a ∧ f a = Ok b.
Proof. destruct r; simpl; [eauto | discriminate]. Qed.

Lemma bind_Err_inv {A B} (r : res A) (f : A → res B) (e : py_error) :
  (r ≫= f) = Err e → r = Err e ∨ ∃ a, r = Ok a ∧ f a = Err e.
Proof. destruct r; simpl; [eauto | intros [= ->]; auto]. Qed.

Lemma of_option_Some {A} e (a : A) : of_option e (Some a) = Ok a.
Proof. reflexivity. Qed.

Lemma of_option_None {A} e : of_option (A:=A) e None = Err e.
Proof. reflexivity. Qed.

Lemma Ok_inj {A} (a b : A) : Ok a = Ok b → a = b.
Proof. by intros [= ->]. Qed.

(** ** Automation *)

Create HintDb pint discriminated.
Create Rewrite HintDb pint_rw.
#[export] Hint Rewrite @bind_Ok @bind_Err @of_option_Some @of_option_None : pint_rw.

(** Simplify binds of known results and injections of [Ok]. *)
Ltac inv_res :=
  repeat match goal with
  | H : Ok _ = Ok _ |- _ => apply Ok_inj in H; subst
  | H : Ok _ = Err _ |- _ => discriminate H
  | H : Err _ = Ok _ |- _ => discriminate H
  | H : Err _ = Err _ |- _ => injection H as H; subst
  end.

Ltac res_simpl := autorewrite with pint_rw in *; inv_res.

(** Close a decidable goal about concrete data by evaluation. *)
Ltac decide_concrete := apply (bool_decide_unpack _); vm_compute; reflexivity.

(** ** Python builtins *)

(** [c.upper()] on one ASCII character. *)
Definition ascii_upper (c : Ascii.ascii) : Ascii.ascii :=
  let n := Ascii.nat_of_ascii c in
  if decide (97 ≤ n ≤ 122) then Ascii.ascii_of_nat (n - 32) else c.

(** [s.upper()] on an ASCII string. *)
Fixpoint str_upper (s : string) : string :=
  match s with
  | EmptyString => EmptyString
  | String c s' => String (ascii_upper c) (str_upper s')
  end.

Lemma string_append_inj_l (p a b : string) :
  String.append p a = String.append p b → a = b.
Proof. induction p as [|c p IH]; simpl; [done|]. intros [= H]. auto. Qed.

(** ** Lists *)

Lemma fold_left_invariant {A B} (P : A → Prop) (f : A → B → A) (l : list B) (a : A) :
  P a → (∀ x b, P x → P (f x b)) → P (fold_left f l a).
Proof. revert a. induction l; simpl; auto. Qed.

Lemma NoDup_app_single {A} (l : list A) (x : A) :
  x ∉ l → NoDup l → NoDup (l ++ [x]).
Proof.
  intros Hx Hl. apply NoDup_app. split_and!; [done | | apply NoDup_singleton].
  intros y Hy ->%list_elem_of_singleton. done.
Qed.
#[export] Hint Resolve NoDup_app_single : pint.
