(* ===== verification/PyDict.v ===== *)
(** Python's insertion-ordered [dict] with string keys, as an association
    list: item assignment replaces a value in place or appends a new key,
    [update] assigns the items of another dict in their order, [del]
    removes a key or raises [KeyError], and [keys] lists the keys in
    insertion order.  The invariant is that keys are distinct; every
    operation preserves it. *)

From S2P Require Import Prelude.

Module PyDict.

Section Dict.
Context {V : Type}.

Definition dict := list (string * V).

Definition keys (d : dict) : list string := map fst d.

(** [d[k]] *)
Fixpoint get (d : dict) (k : string) : option V :=
  match d with
  | [] => None
  | (k', v) :: d' => if decide (k' = k) then Some v else get d' k
  end.

(** [d[k] = v] *)
Fixpoint setitem (d : dict) (k : string) (v : V) : dict :=
  match d with
  | [] => [(k, v)]
  | (k', v') :: d' =>
      if decide (k' = k) then (k, v) :: d' else (k', v') :: setitem d' k v
  end.

(** [d.update(other)] *)
Definition update (d other : dict) : dict :=
  fold_left (λ acc kv, setitem acc kv.1 kv.2) other d.

Fixpoint remove (d : dict) (k : string) : dict :=
  match d with
  | [] => []
  | (k', v) :: d' => if decide (k' = k) then d' else (k', v) :: remove d' k
  end.

(** [del d[k]] *)
Definition delitem (d : dict) (k : string) : res dict :=
  match get d k with
  | Some _ => Ok (remove d k)
  | None => Err (KeyError k)
  end.

Definition wf (d : dict) : Prop := NoDup (keys d).

(** ** Lemmas *)

Lemma get_Some_in (d : dict) k v : get d k = Some v → k ∈ keys d.
Proof.
  induction d as [|[k' v'] d IH]; simpl; [done|].
  case_decide; [intros; subst; left|intros; right; auto].
Qed.

Lemma get_None_notin (d : dict) k : get d k = None ↔ k ∉ keys d.
Proof.
  induction d as [|[k' v'] d IH]; simpl; [set_solver|].
  case_decide; subst; [split; [done|set_solver]|].
  rewrite IH, elem_of_cons. naive_solver.
Qed.

Lemma in_keys_get (d : dict) k : k ∈ keys d → ∃ v, get d k = Some v.
Proof.
  intros Hk. destruct (get d k) eqn:E; [eauto|].
  apply get_None_notin in E. done.
Qed.

Lemma get_setitem_eq (d : dict) k v : get (setitem d k v) k = Some v.
Proof.
  induction d as [|[k' v'] d IH]; simpl; [by case_decide|].
  repeat (case_decide; simpl); subst; done.
Qed.

Lemma get_setitem_ne (d : dict) k k2 v : k ≠ k2 → get (setitem d k v) k2 = get d k2.
Proof.
  intros Hne. induction d as [|[k' v'] d IH]; simpl; [by case_decide|].
  repeat (case_decide; simpl); subst; congruence.
Qed.

Lemma keys_setitem_in (d : dict) k v : k ∈ keys d → keys (setitem d k v) = keys d.
Proof.
  induction d as [|[k' v'] d IH]; simpl; [set_solver|].
  case_decide; simpl; subst; [done|].
  intros Hk. rewrite IH; [done|set_solver].
Qed.

Lemma keys_setitem_notin (d : dict) k v : k ∉ keys d → keys (setitem d k v) = keys d ++ [k].
Proof.
  induction d as [|[k' v'] d IH]; simpl; [done|].
  case_decide; subst; [set_solver|].
  intros Hk. simpl. rewrite IH; [done|set_solver].
Qed.

Lemma setitem_wf (d : dict) k v : wf d → wf (setitem d k v).
Proof.
  unfold wf. intros Hd. destruct (decide (k ∈ keys d)).
  - by rewrite keys_setitem_in.
  - rewrite keys_setitem_notin by done. auto with pint.
Qed.

Lemma update_wf (d other : dict) : wf d → wf (update d other).
Proof. intros. unfold update. apply fold_left_invariant; auto using setitem_wf. Qed.

Lemma keys_remove_notin (d : dict) k : wf d → k ∉ keys (remove d k).
Proof.
  unfold wf. induction d as [|[k' v'] d IH]; simpl; [set_solver|].
  intros Hnd%NoDup_cons. case_decide; subst; [naive_solver|].
  simpl. rewrite elem_of_cons. naive_solver.
Qed.

Lemma keys_remove_sub (d : dict) k : keys (remove d k) ⊆ keys d.
Proof.
  induction d as [|[k' v'] d IH]; simpl; [done|].
  case_decide; simpl; set_solver.
Qed.

Lemma remove_wf (d : dict) k : wf d → wf (remove d k).
Proof.
  unfold wf. induction d as [|[k' v'] d IH]; simpl; [done|].
  intros [Hk Hnd]%NoDup_cons. case_decide; [done|].
  simpl. constructor; [|auto]. pose proof (keys_remove_sub d k). set_solver.
Qed.

Lemma get_remove_ne (d : dict) k k2 : k ≠ k2 → get (remove d k) k2 = get d k2.
Proof.
  intros Hne. induction d as [|[k' v'] d IH]; simpl; [done|].
  repeat (case_decide; simpl); subst; congruence.
Qed.

Lemma keys_remove_in (d : dict) k k2 : k ≠ k2 → k2 ∈ keys (remove d k) ↔ k2 ∈ keys d.
Proof.
  intros Hne. split; [apply keys_remove_sub|].
  intros [v Hv]%in_keys_get. rewrite <- (get_remove_ne d k k2 Hne) in Hv.
  by eapply get_Some_in.
Qed.

Lemma delitem_notin (d : dict) k : k ∉ keys d → delitem d k = Err (KeyError k).
Proof. intros Hk. unfold delitem. by rewrite (proj2 (get_None_notin d k) Hk). Qed.

Lemma delitem_in (d : dict) k : k ∈ keys d → delitem d k = Ok (remove d k).
Proof. intros [v Hv]%in_keys_get. unfold delitem. by rewrite Hv. Qed.

(** The dict as a finite map; the first binding of a key wins, as in
    [get]. *)
Definition to_map (d : dict) : gmap string V := list_to_map d.

Lemma lookup_to_map (d : dict) k : to_map d !! k = get d k.
Proof.
  unfold to_map. induction d as [|[k' v] d IH]; [by rewrite list_to_map_nil, lookup_empty|].
  cbn [get]. rewrite list_to_map_cons.
  case_decide as Hk; [subst; apply lookup_insert_eq|rewrite lookup_insert_ne; auto].
Qed.

Lemma lookup_union_to_map (d : dict) (m : gmap string V) k :
  (to_map d ∪ m) !! k = match get d k with Some v => Some v | None => m !! k end.
Proof.
  destruct (get d k) eqn:E.
  - apply lookup_union_Some_l. by rewrite lookup_to_map.
  - apply lookup_union_r. by rewrite lookup_to_map.
Qed.

End Dict.

Arguments dict : clear implicits.

End PyDict.

#[export] Hint Resolve PyDict.setitem_wf PyDict.update_wf PyDict.remove_wf : pint.
