(* ===== verification/Quantity.v ===== *)
(** The values the binary models compute with: numpy scalars and arrays of
    reals, optionally carrying an astropy unit.  A unit is a map from base
    unit names to nonzero integer exponents, so that equal units are equal
    maps; [None] as a unit stands for a plain Python or numpy number, which
    has no [.unit] attribute.  The numpy and astropy operations the model
    code calls ([np.exp], unary minus, [1 - q], [np.zeros], multiplying and
    dividing by a unit, reading [.unit]) are written out with the errors
    astropy raises for a dimensioned argument. *)

From Stdlib Require Export Reals Lra.
From S2P Require Import Prelude.

Module Quantity.

(** ** Units *)

Abbreviation Unit := (gmap string Z).

Definition dimensionless : Unit := ∅.

Definition ubase (b : string) : Unit := {[ b := 1%Z ]}.

Definition nz (z : Z) : option Z := if decide (z = 0%Z) then None else Some z.

Definition umul_exp (a b : option Z) : option Z :=
  match a, b with
  | Some x, Some y => nz (x + y)
  | Some x, None => Some x
  | None, Some y => Some y
  | None, None => None
  end.

Definition umul (u1 u2 : Unit) : Unit := merge umul_exp u1 u2.
Definition uinv (u : Unit) : Unit := Z.opp <$> u.
Definition udiv (u1 u2 : Unit) : Unit := umul u1 (uinv u2).

(** ** Values *)

Inductive ndval :=
  | Scalar (x : R)
  | Array (xs : list R).

Record quantity := mkQ { qval : ndval; qunit : option Unit }.

Definition plain (x : R) : quantity := mkQ (Scalar x) None.

Definition nd_map (f : R → R) (v : ndval) : ndval :=
  match v with
  | Scalar x => Scalar (f x)
  | Array xs => Array (map f xs)
  end.

(** [np.exp(q)]: a unit must be dimensionless. *)
Definition np_exp (q : quantity) : res quantity :=
  match qunit q with
  | None => Ok (mkQ (nd_map exp (qval q)) None)
  | Some u =>
      if decide (u = dimensionless) then Ok (mkQ (nd_map exp (qval q)) (Some dimensionless))
      else Err (UnitsError "exp of a dimensioned quantity")
  end.

(** [v.shape]: [None] for a scalar, the length of an array. *)
Definition nd_shape (v : ndval) : option nat :=
  match v with
  | Scalar _ => None
  | Array xs => Some (length xs)
  end.

(** [-q] *)
Definition q_neg (q : quantity) : quantity := mkQ (nd_map Ropp (qval q)) (qunit q).

(** [c - q] for a Python number [c]: a unit must be dimensionless. *)
Definition q_rsub (c : R) (q : quantity) : res quantity :=
  match qunit q with
  | None => Ok (mkQ (nd_map (Rminus c) (qval q)) None)
  | Some u =>
      if decide (u = dimensionless) then Ok (mkQ (nd_map (Rminus c) (qval q)) (Some dimensionless))
      else Err (UnitsError "subtracting a dimensioned quantity from a number")
  end.

(** [np.zeros(n)] *)
Definition np_zeros (n : nat) : ndval := Array (repeat 0%R n).

(** [v * u] for a unit [u] *)
Definition q_mul_unit (q : quantity) (u : Unit) : quantity :=
  mkQ (qval q) (Some (umul (default dimensionless (qunit q)) u)).

(** [v / u] for a unit [u] *)
Definition q_div_unit (q : quantity) (u : Unit) : quantity :=
  mkQ (qval q) (Some (udiv (default dimensionless (qunit q)) u)).

(** [q.unit]: a plain number has no such attribute. *)
Definition unit_attr (q : quantity) : res Unit := of_option (AttributeError "unit") (qunit q).

(** A value that [np.exp] and [1 - _] accept. *)
Definition dimless (q : quantity) : Prop := qunit q = None ∨ qunit q = Some dimensionless.

#[export] Instance dimless_dec q : Decision (dimless q).
Proof. unfold dimless. solve_decision. Defined.

(** ** Lemmas *)

Lemma lookup_udiv (u1 u2 : Unit) k :
  udiv u1 u2 !! k = umul_exp (u1 !! k) (Z.opp <$> u2 !! k).
Proof.
  unfold udiv, umul, uinv. rewrite lookup_merge, lookup_fmap.
  by destruct (u1 !! k), (u2 !! k).
Qed.

Lemma udiv_dimensionless_l (u : Unit) : udiv dimensionless u = uinv u.
Proof.
  apply map_eq. intros k. rewrite lookup_udiv. unfold uinv.
  rewrite lookup_fmap. by destruct (u !! k).
Qed.

Lemma udiv_dimensionless_r (u : Unit) : udiv u dimensionless = u.
Proof.
  apply map_eq. intros k. rewrite lookup_udiv. by destruct (u !! k).
Qed.

Lemma umul_dimensionless : umul dimensionless dimensionless = dimensionless.
Proof. apply map_eq. intros k. unfold umul, dimensionless. by rewrite lookup_merge, !lookup_empty. Qed.

Lemma np_exp_dimless (q : quantity) :
  dimless q → np_exp q = Ok (mkQ (nd_map exp (qval q)) (qunit q)).
Proof. unfold np_exp. intros [-> | ->]; [done|]. by rewrite decide_True. Qed.

Lemma q_rsub_dimless (c : R) (q : quantity) :
  dimless q → q_rsub c q = Ok (mkQ (nd_map (Rminus c) (qval q)) (qunit q)).
Proof. unfold q_rsub. intros [-> | ->]; [done|]. by rewrite decide_True. Qed.

Lemma np_exp_dimensioned (q : quantity) :
  ¬ dimless q → np_exp q = Err (UnitsError "exp of a dimensioned quantity").
Proof.
  unfold np_exp, dimless. destruct (qunit q) as [u|]; [|tauto].
  intros H. rewrite decide_False; [done|]. intros ->. tauto.
Qed.

Lemma nd_map_compose (f g : R → R) (v : ndval) :
  nd_map f (nd_map g v) = nd_map (λ x, f (g x)) v.
Proof. destruct v; simpl; [done|]. by rewrite map_map. Qed.

Lemma nd_shape_map (f : R → R) (v : ndval) : nd_shape (nd_map f v) = nd_shape v.
Proof. destruct v; simpl; [done|]. by rewrite length_map. Qed.

Lemma q_neg_dimless (q : quantity) : dimless q → dimless (q_neg q).
Proof. done. Qed.

Lemma length_np_zeros n : ∃ xs, np_zeros n = Array xs ∧ length xs = n ∧ Forall (eq 0%R) xs.
Proof.
  exists (repeat 0%R n). split_and!; [done|apply repeat_length|].
  apply Forall_forall. intros x Hx%list_elem_of_In%repeat_spec. done.
Qed.

End Quantity.

#[export] Hint Resolve Quantity.q_neg_dimless : pint.
