(* ===== verification/BinaryGeneric.v ===== *)
(** The base of the binary-model hierarchy, [PSR_BINARY] and [DDmodel]
    (pint/models/stand_alone_psr_binaries/binary_generic.py and
    DD_model.py, which are not files of this repository: they are
    modelled from the specification).

    A model object is a [bstate]: its default table [param_default_value]
    (an insertion-ordered dict), the list [binary_params], the instance
    attributes that hold parameter values, the epochs [t] and the log of
    [warnings.warn] calls.  Python looks an attribute up in the class first
    (properties and methods) and then in the instance dict; the class is the
    typeclass [BinaryVariant], which a subclass such as [DDSmodel]
    instantiates, so that the base constructors run with the subclass's
    properties exactly as [super().__init__()] does. *)

From S2P Require Import Prelude PyDict Quantity.
Import Quantity.

Module Binary.

Record bstate := mkB {
  binary_name : option string;
  param_default_value : PyDict.dict quantity;
  binary_params : list string;
  attrs : gmap string quantity;
  t : option (list R);
  warnings : list string
}.

Definition set_attrs (s : bstate) (a : gmap string quantity) : bstate :=
  mkB (binary_name s) (param_default_value s) (binary_params s) a (t s) (warnings s).

(** [warnings.warn(msg)] *)
Definition warn (s : bstate) (msg : string) : bstate :=
  mkB (binary_name s) (param_default_value s) (binary_params s) (attrs s) (t s)
      (warnings s ++ [msg]).

(** A Python [property]: its getter and its setter. *)
Record property := mkProp {
  prop_get : bstate → res quantity;
  prop_set : bstate → quantity → bstate
}.

(** The class of a model object: the properties it defines and its
    argument-less methods (the derivative rules [d_<y>_d_<x>]), by name. *)
Class BinaryVariant := {
  bv_property : string → option property;
  bv_method : string → option (bstate → res quantity)
}.

Section Generic.
Context `{BinaryVariant}.

(** [self.__dict__[name]] *)
Definition getattr_dict (s : bstate) (name : string) : res quantity :=
  of_option (AttributeError name) (attrs s !! name).

(** [getattr(self, name)]: a property of the class first, then the
    instance dict. *)
Definition getattr (s : bstate) (name : string) : res quantity :=
  match bv_property name with
  | Some p => prop_get p s
  | None => getattr_dict s name
  end.

(** [setattr(self, name, v)]: a property's setter, or the instance dict. *)
Definition setattr (s : bstate) (name : string) (v : quantity) : bstate :=
  match bv_property name with
  | Some p => prop_set p s v
  | None => set_attrs s (<[name := v]> (attrs s))
  end.

(** What [getattr(self, name)] can return: a value (a stored parameter or
    a property's result) or a bound method, called with no argument. *)
Inductive pyattr :=
  | AttrValue (q : quantity)
  | BoundMethod (f : unit → res quantity).

(** [getattr(self, name)] in full: a property of the class (a data
    descriptor) first, then the instance dict, then a method of the class,
    else [AttributeError]. *)
Definition lookup_attr (s : bstate) (name : string) : res pyattr :=
  match bv_property name with
  | Some p => AttrValue <$> prop_get p s
  | None =>
      match attrs s !! name with
      | Some q => Ok (AttrValue q)
      | None =>
          match bv_method name with
          | Some f => Ok (BoundMethod (λ _, f s))
          | None => Err (AttributeError name)
          end
      end
  end.

(** [obj()] *)
Definition call_attr (a : pyattr) : res quantity :=
  match a with
  | BoundMethod f => f tt
  | AttrValue _ => Err (TypeError "'Quantity' object is not callable")
  end.

(** [obj.unit] *)
Definition attr_unit (a : pyattr) : res Unit :=
  match a with
  | AttrValue q => unit_attr q
  | BoundMethod _ => Err (AttributeError "unit")
  end.

Definition set_param_step (s : bstate) (kv : string * quantity) : bstate :=
  setattr s (str_upper kv.1) kv.2.

(** [set_param_values()] with no [valDict]: every default, in the table's
    order, assigned with [setattr(self, par.upper(), default)]. *)
Definition set_param_values (s : bstate) : bstate :=
  fold_left set_param_step (param_default_value s) s.

(** Seconds per unit for the time units [.to("second")] converts (an
    astropy [yr] is the Julian year); [None] for any other unit. *)
Definition seconds_per (u : Unit) : option R :=
  if decide (u = ubase "s") then Some 1%R
  else if decide (u = ubase "min") then Some 60%R
  else if decide (u = ubase "h") then Some 3600%R
  else if decide (u = ubase "d") then Some 86400%R
  else if decide (u = ubase "yr") then Some 31557600%R
  else None.

(** A binary operation on two arrays, broadcast the numpy way: equal
    lengths pair up, an operand of length 1 stretches to the other's
    length, and any other pair of lengths raises. *)
Definition broadcast2 (f : R → R → R) (xs ys : list R) : res (list R) :=
  if decide (length xs = length ys) then Ok (zip_with f xs ys)
  else
    match xs, ys with
    | [x], _ => Ok (map (f x) ys)
    | _, [y] => Ok (map (λ x, f x y) xs)
    | _, _ => Err (ValueError "operands could not be broadcast together")
    end.

Definition T0_units_error : py_error := UnitsError "T0 cannot be converted to seconds".

(** [(barycentricTOA * u.day - T0).to("second")] for epochs [ts] in days:
    [T0] is converted to days for the subtraction and the difference to
    seconds, [ti * 86400 - x * (seconds per unit of T0)]; a [T0] that is
    not a time raises. *)
Definition get_tt0 (ts : list R) (T0 : quantity) : res (list R) :=
  f ← of_option T0_units_error (qunit T0 ≫= seconds_per);
  let sub ti x := (ti * 86400 - x * f)%R in
  match qval T0 with
  | Scalar x => Ok (map (λ ti, sub ti x) ts)
  | Array xs => broadcast2 sub ts xs
  end.

(** The [tt0] property, [self.get_tt0(self._t)]: [None] when the model
    has no epochs (then [self.T0] is not read), the time since [T0]
    otherwise. *)
Definition tt0 (s : bstate) : res (option (list R)) :=
  match t s with
  | None => Ok None
  | Some ts => T0 ← getattr s "T0"; Some <$> get_tt0 ts T0
  end.

(** [len(None)] *)
Definition t_unset_error : py_error :=
  TypeError "object of type 'NoneType' has no len()".

(** [len(x)] of [self.tt0], which may be [None]. *)
Definition py_len (o : option (list R)) : res nat :=
  match o with
  | Some xs => Ok (length xs)
  | None => Err t_unset_error
  end.

Definition deriv_rule_name (y x : string) : string :=
  String.append "d_" (String.append y (String.append "_d_" x)).

(** [derivative_of(y, x)] of the specification: the class's rule
    [d_<y>_d_<x>] when it has one, otherwise an exact zero array, one entry
    per epoch, with unit (unit of [y]) / (unit of [x]). *)
Definition derivative_of (s : bstate) (y x : string) : res quantity :=
  match bv_method (deriv_rule_name y x) with
  | Some f => f s
  | None =>
      qy ← getattr s y;
      qx ← getattr s x;
      ts ← tt0 s;
      n ← py_len ts;
      Ok (mkQ (np_zeros n)
              (Some (udiv (default dimensionless (qunit qy))
                          (default dimensionless (qunit qx)))))
  end.

End Generic.

(** ** The base classes' default tables *)

Definition q (x : R) (u : Unit) : quantity := mkQ (Scalar x) (Some u).

Definition psr_binary_defaults : PyDict.dict quantity :=
  [("PB", q 10 (ubase "d"));
   ("PBDOT", q 0 dimensionless);
   ("ECC", q 0 dimensionless);
   ("EDOT", q 0 (uinv (ubase "s")));
   ("A1", q 10 (ubase "ls"));
   ("A1DOT", q 0 (udiv (ubase "ls") (ubase "s")));
   ("T0", q 54000 (ubase "d"));
   ("OM", q 10 (ubase "deg"));
   ("OMDOT", q 0 (udiv (ubase "deg") (ubase "yr")));
   ("XPBDOT", q 0 dimensionless);
   ("M2", q 0 (ubase "solMass"));
   ("SINI", q 0 dimensionless);
   ("GAMMA", q 0 (ubase "s"));
   ("FB0", q (11574 / 10000000000) (uinv (ubase "s")))].

Definition dd_defaults : PyDict.dict quantity :=
  [("A0", q 0 (ubase "s"));
   ("B0", q 0 (ubase "s"));
   ("DR", q 0 dimensionless);
   ("DTH", q 0 dimensionless)].

(** The table [DDmodel.__init__] builds. *)
Definition dd_table : PyDict.dict quantity := PyDict.update psr_binary_defaults dd_defaults.

(** A freshly allocated object, before [__init__]. *)
Definition blank : bstate := mkB None [] [] ∅ None [].

Section Constructors.
Context `{BinaryVariant}.

(** [PSR_BINARY.__init__] *)
Definition PSR_BINARY_init (s : bstate) : bstate :=
  set_param_values
    (mkB None psr_binary_defaults (PyDict.keys psr_binary_defaults) (attrs s) None (warnings s)).

(** [DDmodel.__init__]: [super().__init__()], then the DD defaults. *)
Definition DD_init (s : bstate) : bstate :=
  let s := PSR_BINARY_init s in
  let d := PyDict.update (param_default_value s) dd_defaults in
  set_param_values (mkB (Some "DD") d (PyDict.keys d) (attrs s) (t s) (warnings s)).

End Constructors.

(** ** Lemmas *)

Lemma bstate_eq x y :
  binary_name x = binary_name y → param_default_value x = param_default_value y →
  binary_params x = binary_params y → attrs x = attrs y → t x = t y →
  warnings x = warnings y → x = y.
Proof. destruct x, y; simpl; intros; by subst. Qed.

Section GenericLemmas.
Context `{BinaryVariant}.

(** The class's property setters only log warnings: they leave every other
    field of the object as it is (true of [DDSmodel.SINI]). *)
Definition setters_only_warn : Prop :=
  ∀ n p s v, bv_property n = Some p →
  ∃ msgs, prop_set p s v =
    mkB (binary_name s) (param_default_value s) (binary_params s) (attrs s) (t s)
        (warnings s ++ msgs).

Hypothesis Hset : setters_only_warn.

Lemma setattr_frame s n v :
  binary_name (setattr s n v) = binary_name s ∧
  param_default_value (setattr s n v) = param_default_value s ∧
  binary_params (setattr s n v) = binary_params s ∧
  t (setattr s n v) = t s.
Proof.
  unfold setattr. destruct (bv_property n) as [p|] eqn:E; [|done].
  destruct (Hset n p s v E) as [msgs ->]. done.
Qed.

Lemma attrs_setattr_ne s n k v : n ≠ k → attrs (setattr s n v) !! k = attrs s !! k.
Proof.
  intros Hne. unfold setattr. destruct (bv_property n) as [p|] eqn:E.
  - by destruct (Hset n p s v E) as [msgs ->].
  - simpl. by rewrite lookup_insert_ne.
Qed.

Lemma attrs_setattr_eq s k v :
  attrs (setattr s k v) !! k =
    match bv_property k with Some _ => attrs s !! k | None => Some v end.
Proof.
  unfold setattr. destruct (bv_property k) as [p|] eqn:E.
  - by destruct (Hset k p s v E) as [msgs ->].
  - simpl. by rewrite lookup_insert_eq.
Qed.

(** What the assignment loop of [set_param_values] leaves in the instance
    dict: the default of every key that is not a property, the old value
    elsewhere. *)
Lemma fold_set_param_attrs (l : PyDict.dict quantity) s k :
  Forall (λ kv, str_upper kv.1 = kv.1) l → NoDup (PyDict.keys l) →
  attrs (fold_left set_param_step l s) !! k =
    match PyDict.get l k, bv_property k with
    | Some v, None => Some v
    | _, _ => attrs s !! k
    end.
Proof.
  revert s. induction l as [|[k' v'] l IH]; intros s Hup Hnd; simpl.
  - by destruct (bv_property k).
  - apply Forall_cons in Hup as [Hk' Hup]. apply NoDup_cons in Hnd as [Hnotin Hnd].
    rewrite IH by done. unfold set_param_step. simpl in *. rewrite Hk'.
    case_decide as Hkk; subst.
    + rewrite (proj2 (PyDict.get_None_notin l k) Hnotin), attrs_setattr_eq.
      by destruct (bv_property k).
    + destruct (PyDict.get l k), (bv_property k); by rewrite ?attrs_setattr_ne.
Qed.

Lemma fold_set_param_frame (l : PyDict.dict quantity) s :
  binary_name (fold_left set_param_step l s) = binary_name s ∧
  param_default_value (fold_left set_param_step l s) = param_default_value s ∧
  binary_params (fold_left set_param_step l s) = binary_params s ∧
  t (fold_left set_param_step l s) = t s.
Proof.
  revert s. induction l as [|kv l IH]; intros s; simpl; [done|].
  destruct (IH (set_param_step s kv)) as (-> & -> & -> & ->).
  apply setattr_frame.
Qed.

Lemma getattr_plain s k : bv_property k = None → getattr s k = getattr_dict s k.
Proof. unfold getattr. by intros ->. Qed.

Lemma set_param_values_attrs s k :
  PyDict.wf (param_default_value s) →
  Forall (λ kv, str_upper kv.1 = kv.1) (param_default_value s) →
  attrs (set_param_values s) !! k =
    match PyDict.get (param_default_value s) k, bv_property k with
    | Some v, None => Some v
    | _, _ => attrs s !! k
    end.
Proof. intros. by apply fold_set_param_attrs. Qed.

(** after [set_param_values()], every declared parameter that is not
    a property of the class reads back as its default, provided the table
    has distinct upper-case keys. *)
Theorem set_param_values_assigns s k v :
  PyDict.wf (param_default_value s) →
  Forall (λ kv, str_upper kv.1 = kv.1) (param_default_value s) →
  PyDict.get (param_default_value s) k = Some v →
  bv_property k = None →
  getattr (set_param_values s) k = Ok v.
Proof.
  intros Hwf Hup Hk Hp. rewrite getattr_plain by done. unfold getattr_dict.
  rewrite set_param_values_attrs, Hk, Hp by done. done.
Qed.

(** [set_param_values()] only changes the attributes and the warnings. *)
Lemma set_param_values_mkB n d bp a ts w :
  set_param_values (mkB n d bp a ts w) =
    mkB n d bp (attrs (set_param_values (mkB n d bp a ts w))) ts
        (warnings (set_param_values (mkB n d bp a ts w))).
Proof.
  destruct (fold_set_param_frame d (mkB n d bp a ts w)) as (Hn & Hd & Hb & Ht).
  apply bstate_eq; done.
Qed.

Lemma PSR_BINARY_init_frame s :
  binary_name (PSR_BINARY_init s) = None ∧
  param_default_value (PSR_BINARY_init s) = psr_binary_defaults ∧
  binary_params (PSR_BINARY_init s) = PyDict.keys psr_binary_defaults ∧
  t (PSR_BINARY_init s) = None.
Proof. apply fold_set_param_frame. Qed.

Lemma PSR_BINARY_init_attrs s k :
  attrs (PSR_BINARY_init s) !! k =
    match PyDict.get psr_binary_defaults k, bv_property k with
    | Some v, None => Some v
    | _, _ => attrs s !! k
    end.
Proof. unfold PSR_BINARY_init. rewrite set_param_values_attrs; [done|decide_concrete..]. Qed.

Lemma DD_init_frame s :
  binary_name (DD_init s) = Some "DD" ∧ param_default_value (DD_init s) = dd_table ∧
  binary_params (DD_init s) = PyDict.keys dd_table ∧ t (DD_init s) = None.
Proof.
  destruct (PSR_BINARY_init_frame s) as (_ & Hd & _ & Ht).
  unfold DD_init. cbv zeta. rewrite Hd, Ht. apply fold_set_param_frame.
Qed.

Lemma DD_init_attrs s k :
  attrs (DD_init s) !! k =
    match PyDict.get dd_table k, bv_property k with
    | Some v, None => Some v
    | _, _ => attrs (PSR_BINARY_init s) !! k
    end.
Proof.
  destruct (PSR_BINARY_init_frame s) as (_ & Hd & _ & _).
  unfold DD_init. cbv zeta. rewrite Hd.
  rewrite set_param_values_attrs; [done|decide_concrete..].
Qed.

Lemma seconds_per_day : seconds_per (ubase "d") = Some 86400%R.
Proof. vm_compute. reflexivity. Qed.

(** A [T0] in days: [tt0] is [(ti - T0)] in seconds, one entry per epoch. *)
Lemma get_tt0_day ts x :
  get_tt0 ts (q x (ubase "d")) = Ok (map (λ ti, ti * 86400 - x * 86400)%R ts).
Proof. unfold get_tt0. simpl. by rewrite seconds_per_day. Qed.

End GenericLemmas.

Section Derivatives.
Context `{BinaryVariant}.

Lemma lookup_attr_value s n q : getattr s n = Ok q → lookup_attr s n = Ok (AttrValue q).
Proof.
  unfold getattr, lookup_attr, getattr_dict. destruct (bv_property n); [by intros ->|].
  destruct (attrs s !! n); simpl; [by intros [= ->]|discriminate].
Qed.

Lemma broadcast2_length f xs ys zs :
  broadcast2 f xs ys = Ok zs → length xs ≠ 1 → length zs = length xs.
Proof.
  unfold broadcast2. case_decide as Hl.
  - intros [= <-] _. rewrite length_zip_with. lia.
  - destruct xs as [|x [|x' xs]], ys as [|y [|y' ys]]; simpl in *;
      intros Hb Hn; simplify_eq/=; rewrite ?length_map; done || lia.
Qed.

Lemma get_tt0_length ts T0 tts :
  get_tt0 ts T0 = Ok tts → length ts ≠ 1 → length tts = length ts.
Proof.
  unfold get_tt0. destruct (qunit T0 ≫= seconds_per); simpl; [|discriminate].
  destruct (qval T0) as [x|xs].
  - intros [= <-] _. apply length_map.
  - apply broadcast2_length.
Qed.

(** A scalar [T0] gives one [tt0] entry per epoch. *)
Lemma get_tt0_scalar_length ts T0 x tts :
  qval T0 = Scalar x → get_tt0 ts T0 = Ok tts → length tts = length ts.
Proof.
  intros Hx. unfold get_tt0. rewrite Hx.
  destruct (qunit T0 ≫= seconds_per); simpl; [|discriminate].
  intros [= <-]. apply length_map.
Qed.

Lemma tt0_length s ts tts :
  t s = Some ts → tt0 s = Ok (Some tts) → length ts ≠ 1 → length tts = length ts.
Proof.
  intros Ht. unfold tt0. rewrite Ht. simpl.
  destruct (getattr s "T0") as [T0|]; simpl; [|discriminate].
  destruct (get_tt0 ts T0) eqn:Hg; simpl; [|discriminate].
  intros [= <-]. by apply (get_tt0_length ts T0).
Qed.

Lemma tt0_scalar_length s ts T0 x tts :
  t s = Some ts → getattr s "T0" = Ok T0 → qval T0 = Scalar x →
  tt0 s = Ok (Some tts) → length tts = length ts.
Proof.
  intros Ht HT0 Hx. unfold tt0. rewrite Ht, HT0. simpl.
  destruct (get_tt0 ts T0) eqn:Hg; simpl; [|discriminate].
  intros [= <-]. by eapply get_tt0_scalar_length.
Qed.

Lemma tt0_None s : t s = None → tt0 s = Ok None.
Proof. unfold tt0. by intros ->. Qed.

(** with no rule [d_<y>_d_<x>] in the class, [derivative_of] returns
    an exact zero array with one entry per element of [tt0] and unit
    (unit of [y]) / (unit of [x]); it does not raise. *)
Lemma derivative_of_zero s y x qy qx tts :
  bv_method (deriv_rule_name y x) = None →
  getattr s y = Ok qy → getattr s x = Ok qx → tt0 s = Ok (Some tts) →
  ∃ zs, derivative_of s y x =
          Ok (mkQ (Array zs) (Some (udiv (default dimensionless (qunit qy))
                                         (default dimensionless (qunit qx))))) ∧
        length zs = length tts ∧ Forall (eq 0%R) zs.
Proof.
  intros Hm Hy Hx Htt. unfold derivative_of. rewrite Hm, Hy, Hx, Htt. simpl.
  destruct (length_np_zeros (length tts)) as (zs & Hz & Hl & H0).
  exists zs. by rewrite Hz.
Qed.

End Derivatives.

End Binary.
