(* ===== verification/DDS.v ===== *)
(** [DDSmodel] (src/src/pint/models/stand_alone_psr_binaries/DDS_model.py):
    the Damour-Deruelle model with the Shapiro-delay parameter
    [SHAPMAX = -log(1 - sin i)] in place of [SINI].

    The class is the [BinaryVariant] instance [DDSmodel]: its one property
    is [SINI] (getter [1 - np.exp(-self.SHAPMAX)], setter that only calls
    [warnings.warn]) and its one argument-less derivative method is
    [d_SINI_d_SHAPMAX]; [d_SINI_d_par] and the constructor [DDSmodel_init]
    are the remaining methods.  The theorems show what reading and writing
    [SINI] does, what the constructor leaves in the object from any prior
    state ([DDS_initial_state]), the behaviour of [d_SINI_d_par] on each
    branch (Python's attribute lookup in full, the bare [except:] and the
    [len(self.tt0)] of its fallback included) and its agreement with the
    generic [derivative_of] contract, the shapes and units of the values
    returned, that [d_SINI_d_SHAPMAX] is not the derivative of the [SINI]
    property, and what a plain-number [SHAPMAX] makes of the table entries
    for [SHAPMAX] and [SINI]. *)

From S2P Require Import Prelude PyDict Quantity BinaryGeneric.
Import Quantity Binary.

Module DDS.

Definition SINI_warning : string :=
  "DDS model uses SHAPMAX as inclination angle. SINI will not be used.".

(** The [SINI] property's getter, [1 - np.exp(-self.SHAPMAX)].  [SHAPMAX]
    is not a property of the class, so [self.SHAPMAX] reads the instance
    dict ([getattr_SHAPMAX] below). *)
Definition SINI_get (s : bstate) : res quantity :=
  shapmax ← getattr_dict s "SHAPMAX";
  e ← np_exp (q_neg shapmax);
  q_rsub 1 e.

(** The [SINI] property's setter: a warning, and nothing stored. *)
Definition SINI_set (s : bstate) (val : quantity) : bstate :=
  warn s SINI_warning.

Definition SINI : property := mkProp SINI_get SINI_set.

(** [d_SINI_d_SHAPMAX]: [-np.exp(self.SHAPMAX)]. *)
Definition d_SINI_d_SHAPMAX (s : bstate) : res quantity :=
  shapmax ← getattr_dict s "SHAPMAX";
  e ← np_exp shapmax;
  Ok (q_neg e).

(** The class [DDSmodel]: its property and its derivative rule. *)
#[export] Instance DDSmodel : BinaryVariant := {|
  bv_property name := if decide (name = "SINI") then Some SINI else None;
  bv_method name :=
    if decide (name = "d_SINI_d_SHAPMAX") then Some d_SINI_d_SHAPMAX else None
|}.

(** [d_SINI_d_par(par)]: [par_obj = getattr(self, par)] first (it raises
    for an unknown name); then [ko_func = getattr(self, "d_SINI_d_" + par)],
    where the bare [except:] turns any failure of that lookup into the
    lambda returning [np.zeros(len(self.tt0)) * u.Unit("") / par_obj.unit];
    finally [ko_func()], outside the [try]. *)
Definition d_SINI_d_par (s : bstate) (par : string) : res quantity :=
  par_obj ← lookup_attr s par;
  let ko_func :=
    match lookup_attr s (String.append "d_SINI_d_" par) with
    | Ok f => f
    | Err _ =>
        BoundMethod (λ _,
          tts ← tt0 s;
          n ← py_len tts;
          par_unit ← attr_unit par_obj;
          Ok (q_div_unit (q_mul_unit (mkQ (np_zeros n) None) dimensionless) par_unit))
    end in
  call_attr ko_func.

(** The subclass's addition to the defaults, [{"SHAPMAX": 0}]. *)
Definition DDS_param_defaults : PyDict.dict quantity := [("SHAPMAX", plain 0)].

(** [DDSmodel.__init__(t=None, input_params=None)]: the DD constructor run
    with this class, then [SHAPMAX] added to the defaults, [binary_params]
    recomputed, [SINI] deleted from the defaults and every default assigned
    again.  The arguments [t] and [input_params] are not used by the code. *)
Definition DDSmodel_init (t : option (list R)) (input_params : option (PyDict.dict quantity))
    (s : bstate) : res bstate :=
  let s := DD_init s in
  let d := PyDict.update (param_default_value s) DDS_param_defaults in
  let s := mkB (Some "DDS") d (PyDict.keys d) (attrs s) (Binary.t s) (warnings s) in
  d' ← PyDict.delitem (param_default_value s) "SINI";
  Ok (set_param_values
        (mkB (binary_name s) d' (binary_params s) (attrs s) (Binary.t s) (warnings s))).

(** The object [DDSmodel.__init__] leaves, described directly: the
    [PSR_BINARY] and [DD] defaults without [SINI] and then [SHAPMAX], the
    parameter list computed before [SINI] was deleted, every default stored
    over the attributes the object had, no epochs, and two [SINI]
    warnings. *)
Definition DDS_defaults_expected : PyDict.dict quantity :=
  [("PB", Binary.q 10 (ubase "d"));
   ("PBDOT", Binary.q 0 dimensionless);
   ("ECC", Binary.q 0 dimensionless);
   ("EDOT", Binary.q 0 (uinv (ubase "s")));
   ("A1", Binary.q 10 (ubase "ls"));
   ("A1DOT", Binary.q 0 (udiv (ubase "ls") (ubase "s")));
   ("T0", Binary.q 54000 (ubase "d"));
   ("OM", Binary.q 10 (ubase "deg"));
   ("OMDOT", Binary.q 0 (udiv (ubase "deg") (ubase "yr")));
   ("XPBDOT", Binary.q 0 dimensionless);
   ("M2", Binary.q 0 (ubase "solMass"));
   ("GAMMA", Binary.q 0 (ubase "s"));
   ("FB0", Binary.q (11574 / 10000000000) (uinv (ubase "s")));
   ("A0", Binary.q 0 (ubase "s"));
   ("B0", Binary.q 0 (ubase "s"));
   ("DR", Binary.q 0 dimensionless);
   ("DTH", Binary.q 0 dimensionless);
   ("SHAPMAX", plain 0)].

Definition DDS_binary_params_expected : list string :=
  ["PB"; "PBDOT"; "ECC"; "EDOT"; "A1"; "A1DOT"; "T0"; "OM"; "OMDOT"; "XPBDOT";
   "M2"; "SINI"; "GAMMA"; "FB0"; "A0"; "B0"; "DR"; "DTH"; "SHAPMAX"].

Definition DDS_initial_state (s : bstate) : bstate :=
  mkB (Some "DDS") DDS_defaults_expected DDS_binary_params_expected
      (PyDict.to_map DDS_defaults_expected ∪ attrs s) None
      (warnings s ++ [SINI_warning; SINI_warning]).

(** [SINI] read as a function of an assigned plain-number [SHAPMAX]. *)
Definition SINI_curve (s : bstate) (x : R) : R :=
  match getattr (setattr s "SHAPMAX" (plain x)) "SINI" with
  | Ok (mkQ (Scalar y) _) => y
  | _ => 0%R
  end.

(** The object [DDSmodel()] builds. *)
Definition dds_default : bstate :=
  match DDSmodel_init None None blank with Ok s => s | Err _ => blank end.

(** A model with epochs [[1]], [T0 = 0 d] and a plain-number [A0]. *)
Definition epoch_state : bstate :=
  mkB None [] [] (<["A0" := plain 1]> (<["T0" := Binary.q 0 (ubase "d")]> ∅)) (Some [1%R]) [].

(** A model with epochs [[1; 2]] and a [T0] array of three values, which
    does not broadcast against them. *)
Definition broadcast_state : bstate :=
  mkB None [] []
      (<["A0" := Binary.q 1 (ubase "s")]> (<["T0" := mkQ (Array [0%R; 0%R; 0%R]) (Some (ubase "d"))]> ∅))
      (Some [1%R; 2%R]) [].

(** [epoch_state] with an instance attribute [d_SINI_d_A0]. *)
Definition shadowed_state : bstate := set_attrs epoch_state
  (<["d_SINI_d_A0" := plain 0]> (attrs epoch_state)).

(** A model with epochs [[1; 2]], [T0 = 0 d] and [A0 = 1 s]. *)
Definition timed_state : bstate :=
  mkB None [] [] (<["A0" := Binary.q 1 (ubase "s")]> (<["T0" := Binary.q 0 (ubase "d")]> ∅))
      (Some [1%R; 2%R]) [].

(** ** Lemmas *)

Lemma DDSmodel_init_blank t ip : DDSmodel_init t ip blank = Ok dds_default.
Proof. vm_compute. reflexivity. Qed.

(** The instance attributes of a fresh model are upper-case parameter
    names, so none is a rule name [d_SINI_d_<par>]. *)
Lemma dds_default_no_rule_attr par :
  attrs dds_default !! String.append "d_SINI_d_" par = None.
Proof.
  destruct (attrs dds_default !! _) as [q|] eqn:E; [|done].
  apply elem_of_map_to_list in E.
  assert (Hall : Forall (λ kq : string * quantity, String.substring 0 1 kq.1 ≠ "d")
                   (map_to_list (attrs dds_default))) by decide_concrete.
  exfalso. by apply (proj1 (Forall_forall _ _) Hall _ E).
Qed.

Lemma DDS_setters_only_warn : setters_only_warn.
Proof.
  intros n p s v. simpl. case_decide; [|done].
  intros [= <-]. eexists. reflexivity.
Qed.

Lemma getattr_SHAPMAX s : getattr s "SHAPMAX" = getattr_dict s "SHAPMAX".
Proof. by apply getattr_plain. Qed.

Lemma getattr_SINI s : getattr s "SINI" = SINI_get s.
Proof. reflexivity. Qed.

Lemma setattr_SHAPMAX s v : attrs (setattr s "SHAPMAX" v) = <[ "SHAPMAX" := v ]> (attrs s).
Proof. reflexivity. Qed.

Lemma SINI_get_dict s q :
  attrs s !! "SHAPMAX" = Some q → dimless q →
  SINI_get s = Ok (mkQ (nd_map (λ x, 1 - exp (- x))%R (qval q)) (qunit q)).
Proof.
  intros Hq Hd. unfold SINI_get, getattr_dict. rewrite Hq. simpl.
  rewrite np_exp_dimless by auto with pint. simpl.
  rewrite q_rsub_dimless by done. simpl. by rewrite !nd_map_compose.
Qed.

(** The [SINI] getter on each shape of the stored [SHAPMAX]. *)
Lemma SINI_get_cases s :
  SINI_get s =
    match attrs s !! "SHAPMAX" with
    | None => Err (AttributeError "SHAPMAX")
    | Some q =>
        if decide (dimless q) then Ok (mkQ (nd_map (λ x, 1 - exp (- x))%R (qval q)) (qunit q))
        else Err (UnitsError "exp of a dimensioned quantity")
    end.
Proof.
  destruct (attrs s !! "SHAPMAX") as [q|] eqn:E.
  - case_decide as Hd; [by apply SINI_get_dict|].
    unfold SINI_get, getattr_dict. rewrite E. simpl.
    by rewrite np_exp_dimensioned by (unfold dimless in *; simpl; done).
  - unfold SINI_get, getattr_dict. by rewrite E.
Qed.

Lemma d_SINI_d_SHAPMAX_cases s :
  d_SINI_d_SHAPMAX s =
    match attrs s !! "SHAPMAX" with
    | None => Err (AttributeError "SHAPMAX")
    | Some q =>
        if decide (dimless q) then Ok (mkQ (nd_map (λ x, - exp x)%R (qval q)) (qunit q))
        else Err (UnitsError "exp of a dimensioned quantity")
    end.
Proof.
  unfold d_SINI_d_SHAPMAX, getattr_dict.
  destruct (attrs s !! "SHAPMAX") as [q|]; simpl; [|done].
  case_decide as Hd.
  - rewrite np_exp_dimless by done. simpl. unfold q_neg. simpl. by rewrite nd_map_compose.
  - by rewrite np_exp_dimensioned.
Qed.

Lemma sini_expr_0 : (1 - exp (- 0))%R = 0%R.
Proof. rewrite Ropp_0, exp_0. apply Rminus_diag. Qed.

Lemma SINI_curve_eq s x : SINI_curve s x = (1 - exp (- x))%R.
Proof.
  unfold SINI_curve. rewrite getattr_SINI.
  rewrite (SINI_get_dict _ (plain x)); [done| |by left].
  rewrite setattr_SHAPMAX. apply lookup_insert_eq.
Qed.

Lemma derivable_sini x : derivable_pt_lim (λ y, 1 - exp (- y))%R x (exp (- x)).
Proof.
  assert (Hc : derivable_pt_lim (comp exp (- id)%F) x (exp (- x) * -1)%R).
  { apply derivable_pt_lim_comp; [apply derivable_pt_lim_opp, derivable_pt_lim_id|].
    apply derivable_pt_lim_exp. }
  pose proof (derivable_pt_lim_minus _ _ _ _ _ (derivable_pt_lim_const 1 x) Hc) as Hm.
  replace (exp (- x)) with (0 - exp (- x) * -1)%R by ring.
  eapply derivable_pt_lim_ext; [|exact Hm]. intros z. reflexivity.
Qed.

(** [SINI] as a function of an assigned [SHAPMAX = x] has derivative
    [exp(-x)]. *)
Lemma SINI_curve_derivable s x : derivable_pt_lim (SINI_curve s) x (exp (- x)).
Proof.
  eapply derivable_pt_lim_ext; [|apply derivable_sini].
  intros z. by rewrite SINI_curve_eq.
Qed.

Lemma d_SINI_d_SHAPMAX_plain s x :
  d_SINI_d_SHAPMAX (setattr s "SHAPMAX" (plain x)) = Ok (plain (- exp x)).
Proof.
  unfold d_SINI_d_SHAPMAX, getattr_dict.
  rewrite setattr_SHAPMAX, lookup_insert_eq. reflexivity.
Qed.

Lemma derivative_of_SINI_rule par :
  bv_method (deriv_rule_name "SINI" par) = bv_method (String.append "d_SINI_d_" par).
Proof. reflexivity. Qed.

(** No name [d_SINI_d_<par>] is the class's property. *)
Lemma rule_name_not_property par : bv_property (String.append "d_SINI_d_" par) = None.
Proof. reflexivity. Qed.

Lemma rule_name_method par :
  par ≠ "SHAPMAX" → bv_method (String.append "d_SINI_d_" par) = None.
Proof.
  intros Hp. simpl. case_decide as Hs; [|done].
  exfalso. apply Hp, (string_append_inj_l "d_SINI_d_"), Hs.
Qed.

(** The fallback branch: no property, instance attribute or method
    [d_SINI_d_<par>], so the lambda runs. *)
Lemma d_SINI_d_par_fallback s par a :
  par ≠ "SHAPMAX" → lookup_attr s par = Ok a →
  attrs s !! String.append "d_SINI_d_" par = None →
  d_SINI_d_par s par =
    (tts ← tt0 s; n ← py_len tts; u ← attr_unit a;
     Ok (mkQ (np_zeros n) (Some (udiv dimensionless u)))).
Proof.
  intros Hp Ha Hd. unfold d_SINI_d_par. rewrite Ha. simpl (mbind _ _).
  unfold lookup_attr at 1. rewrite rule_name_not_property, Hd, rule_name_method by done.
  simpl. unfold q_div_unit, q_mul_unit. simpl. by rewrite umul_dimensionless.
Qed.

(** The fallback branch once [len(self.tt0)] and [par_obj.unit] succeed. *)
Lemma d_SINI_d_par_fallback_ok s par a tts u :
  par ≠ "SHAPMAX" → lookup_attr s par = Ok a →
  attrs s !! String.append "d_SINI_d_" par = None →
  tt0 s = Ok (Some tts) → attr_unit a = Ok u →
  d_SINI_d_par s par = Ok (mkQ (np_zeros (length tts)) (Some (uinv u))).
Proof.
  intros Hp Ha Hd Htt Hu. rewrite (d_SINI_d_par_fallback s par a) by done.
  rewrite Htt. simpl. rewrite Hu. simpl. by rewrite udiv_dimensionless_l.
Qed.

Lemma d_SINI_d_par_lookup_err s par e :
  lookup_attr s par = Err e → d_SINI_d_par s par = Err e.
Proof. intros He. unfold d_SINI_d_par. by rewrite He. Qed.

(** *** The constructor from any prior state *)

Lemma dds_property_None k : k ≠ "SINI" → bv_property k = None.
Proof. intros Hk. simpl. case_decide; [contradiction|done]. Qed.

(** Each assignment of the loop of [set_param_values] to the [SINI]
    property logs one warning; the others log none. *)
Lemma dds_fold_warnings l x :
  warnings (fold_left set_param_step l x) =
    warnings x ++ repeat SINI_warning
                   (length (filter (λ kv : string * quantity, str_upper kv.1 = "SINI") l)).
Proof.
  revert x. induction l as [|[k v] l IH]; intros x; simpl; [by rewrite app_nil_r|].
  rewrite IH, filter_cons. unfold set_param_step, setattr. simpl.
  destruct (decide (str_upper k = "SINI")); simpl; [|done].
  by rewrite <- app_assoc.
Qed.

Lemma dds_spv_warnings x :
  warnings (set_param_values x) =
    warnings x ++ repeat SINI_warning
      (length (filter (λ kv : string * quantity, str_upper kv.1 = "SINI") (param_default_value x))).
Proof. apply dds_fold_warnings. Qed.

Lemma psr_binary_SINI_count :
  length (filter (λ kv : string * quantity, str_upper kv.1 = "SINI") psr_binary_defaults) = 1.
Proof. vm_compute. reflexivity. Qed.

Lemma dd_table_SINI_count :
  length (filter (λ kv : string * quantity, str_upper kv.1 = "SINI") dd_table) = 1.
Proof. vm_compute. reflexivity. Qed.

Lemma PSR_BINARY_init_warnings s :
  warnings (PSR_BINARY_init s) = warnings s ++ [SINI_warning].
Proof.
  unfold PSR_BINARY_init. rewrite dds_spv_warnings. cbn [warnings param_default_value].
  by rewrite psr_binary_SINI_count.
Qed.

Lemma DD_init_warnings s : warnings (DD_init s) = warnings s ++ [SINI_warning; SINI_warning].
Proof.
  destruct (PSR_BINARY_init_frame DDS_setters_only_warn s) as (_ & Hd & _ & _).
  pose proof (PSR_BINARY_init_warnings s) as Hw.
  unfold DD_init. cbv zeta. revert Hd Hw. generalize (PSR_BINARY_init s) as s1.
  intros s1 Hd Hw. rewrite dds_spv_warnings. cbn [warnings param_default_value].
  rewrite Hd, Hw. fold dd_table. rewrite dd_table_SINI_count, <- app_assoc. reflexivity.
Qed.

Lemma dds_delitem :
  PyDict.delitem (PyDict.update dd_table DDS_param_defaults) "SINI" = Ok DDS_defaults_expected.
Proof. vm_compute. reflexivity. Qed.

Lemma dds_table_no_SINI :
  length (filter (λ kv : string * quantity, str_upper kv.1 = "SINI") DDS_defaults_expected) = 0.
Proof. vm_compute. reflexivity. Qed.

(** A key of an earlier table that is not [SINI] is still in the final one. *)
Lemma earlier_table_get_None (tbl : PyDict.dict quantity) k :
  PyDict.keys tbl ⊆ "SINI" :: PyDict.keys DDS_defaults_expected → k ≠ "SINI" →
  PyDict.get DDS_defaults_expected k = None → PyDict.get tbl k = None.
Proof.
  rewrite !PyDict.get_None_notin. intros Hsub Hk Hn Hin.
  apply Hsub, elem_of_cons in Hin as [->|]; [contradiction|done].
Qed.

Lemma DDS_init_attrs s s2 bp ts w :
  (∀ k, attrs s2 !! k =
    match PyDict.get dd_table k, bv_property k with
    | Some v, None => Some v
    | _, _ => attrs (PSR_BINARY_init s) !! k
    end) →
  attrs (set_param_values (mkB (Some "DDS") DDS_defaults_expected bp (attrs s2) ts w)) =
    PyDict.to_map DDS_defaults_expected ∪ attrs s.
Proof.
  intros Ha. pose proof (PSR_BINARY_init_attrs DDS_setters_only_warn s) as Ha1.
  apply map_eq. intros k.
  rewrite (set_param_values_attrs DDS_setters_only_warn) by decide_concrete.
  cbn [param_default_value attrs]. rewrite PyDict.lookup_union_to_map.
  destruct (decide (k = "SINI")) as [->|Hk]; [by rewrite Ha, Ha1|].
  rewrite dds_property_None by done.
  destruct (PyDict.get DDS_defaults_expected k) eqn:E; [done|].
  rewrite Ha, Ha1, dds_property_None, !(earlier_table_get_None _ k); try done; decide_concrete.
Qed.

Lemma DDS_init_warnings s2 bp a ts :
  warnings (set_param_values (mkB (Some "DDS") DDS_defaults_expected bp a ts (warnings s2))) =
    warnings s2.
Proof.
  rewrite dds_spv_warnings. cbn [warnings param_default_value].
  by rewrite dds_table_no_SINI, app_nil_r.
Qed.

(** ** Reading and writing [SINI] *)

(** C1: for any value assigned to [SHAPMAX] that [np.exp] accepts (a plain
    number or a dimensionless quantity, scalar or array), reading [SINI]
    afterwards gives exactly [1 - exp(-SHAPMAX)], elementwise, with the
    unit of [SHAPMAX]. *)
Theorem SINI_shapmax_roundtrip s q :
  dimless q →
  @getattr DDSmodel (@setattr DDSmodel s "SHAPMAX" q) "SINI" =
    Ok (mkQ (nd_map (λ x, 1 - exp (- x))%R (qval q)) (qunit q)).
Proof.
  intros Hd. rewrite getattr_SINI. apply SINI_get_dict; [|done].
  rewrite setattr_SHAPMAX. apply lookup_insert_eq.
Qed.

Lemma SINI_shapmax_roundtrip_witness :
  dimless (plain 1) ∧
  getattr (setattr blank "SHAPMAX" (plain 1)) "SINI" = Ok (plain (1 - exp (- 1))).
Proof.
  split; [by left|].
  apply (SINI_shapmax_roundtrip blank (plain 1)). by left.
Defined.

(** C2: assigning to [SINI] stores nothing: the instance attributes are
    unchanged, every attribute (the derived [SINI] included) reads as
    before, and exactly one compatibility warning is logged. *)
Theorem SINI_write_ignored s v :
  attrs (setattr s "SINI" v) = attrs s ∧
  (∀ n, getattr (setattr s "SINI" v) n = getattr s n) ∧
  warnings (setattr s "SINI" v) = warnings s ++ [SINI_warning].
Proof.
  split_and!; [done| |done].
  intros n. unfold getattr. simpl. by case_decide.
Qed.

(** C11: the error paths of the [SINI] getter and of [d_SINI_d_SHAPMAX]:
    with no [SHAPMAX] attribute both raise [AttributeError], and with a
    [SHAPMAX] that carries a unit other than dimensionless both raise the
    [UnitsError] of [np.exp]. *)
Theorem SINI_errors s :
  (attrs s !! "SHAPMAX" = None →
     getattr s "SINI" = Err (AttributeError "SHAPMAX") ∧
     d_SINI_d_SHAPMAX s = Err (AttributeError "SHAPMAX")) ∧
  (∀ q, attrs s !! "SHAPMAX" = Some q → ¬ dimless q →
     getattr s "SINI" = Err (UnitsError "exp of a dimensioned quantity") ∧
     d_SINI_d_SHAPMAX s = Err (UnitsError "exp of a dimensioned quantity")).
Proof.
  rewrite getattr_SINI. unfold SINI_get, d_SINI_d_SHAPMAX, getattr_dict. split.
  - intros ->. done.
  - intros q Hq Hd. rewrite Hq. simpl.
    rewrite !np_exp_dimensioned by (unfold dimless in *; simpl; done). done.
Qed.

Lemma SINI_errors_witness :
  getattr blank "SINI" = Err (AttributeError "SHAPMAX") ∧
  getattr (setattr blank "SHAPMAX" (Binary.q 1 (ubase "s"))) "SINI"
    = Err (UnitsError "exp of a dimensioned quantity").
Proof.
  split.
  - apply (proj1 (SINI_errors blank)). reflexivity.
  - apply (proj2 (SINI_errors _) (Binary.q 1 (ubase "s"))); [reflexivity|decide_concrete].
Defined.

(** ** The derivative rules *)

(** C3: [d_SINI_d_SHAPMAX] is not the derivative of the [SINI] property.
    As a function of an assigned [SHAPMAX = x], [SINI] has derivative
    [exp(-x)] at every [x]; the method returns [-exp(x)], which differs from
    it at every [x], and so does the specification's [-exp(-x)]. *)
Theorem d_SINI_d_SHAPMAX_not_derivative s x :
  derivable_pt_lim (SINI_curve s) x (exp (- x)) ∧
  d_SINI_d_SHAPMAX (setattr s "SHAPMAX" (plain x)) = Ok (plain (- exp x)) ∧
  (- exp x ≠ exp (- x))%R ∧ (- exp (- x) ≠ exp (- x))%R.
Proof.
  pose proof (exp_pos x). pose proof (exp_pos (- x)).
  split_and!; [apply SINI_curve_derivable|apply d_SINI_d_SHAPMAX_plain|lra|lra].
Qed.

(** C17: the values the class computes are well typed: [SINI] and
    [d_SINI_d_SHAPMAX] have the shape (scalar, or array of the same length)
    and the unit of a stored [SHAPMAX] that [np.exp] accepts, and the zero
    fallback of [d_SINI_d_par] is an array with one entry per epoch in the
    unit [1/unit(par)]. *)
Theorem DDS_values_typed s :
  (∀ r, SINI_get s = Ok r → ∃ q, attrs s !! "SHAPMAX" = Some q ∧ dimless q ∧
     qunit r = qunit q ∧ nd_shape (qval r) = nd_shape (qval q)) ∧
  (∀ r, d_SINI_d_SHAPMAX s = Ok r → ∃ q, attrs s !! "SHAPMAX" = Some q ∧ dimless q ∧
     qunit r = qunit q ∧ nd_shape (qval r) = nd_shape (qval q)) ∧
  (∀ par r, par ≠ "SHAPMAX" → attrs s !! String.append "d_SINI_d_" par = None →
     d_SINI_d_par s par = Ok r →
     ∃ tts, tt0 s = Ok (Some tts) ∧ nd_shape (qval r) = Some (length tts) ∧
     ∃ a u, lookup_attr s par = Ok a ∧ attr_unit a = Ok u ∧ qunit r = Some (uinv u)).
Proof.
  split_and!.
  - intros r. rewrite SINI_get_cases.
    destruct (attrs s !! "SHAPMAX") as [q|]; [|discriminate].
    case_decide; [intros [= <-]|discriminate]. exists q. split_and!; [done..|apply nd_shape_map].
  - intros r. rewrite d_SINI_d_SHAPMAX_cases.
    destruct (attrs s !! "SHAPMAX") as [q|]; [|discriminate].
    case_decide; [intros [= <-]|discriminate]. exists q. split_and!; [done..|apply nd_shape_map].
  - intros par r Hp Hd.
    destruct (lookup_attr s par) as [a|e] eqn:Ha; [|by rewrite d_SINI_d_par_lookup_err with (e := e)].
    rewrite (d_SINI_d_par_fallback s par a) by done.
    destruct (tt0 s) as [[tts|]|] eqn:Htt; [|discriminate..]. simpl.
    destruct (attr_unit a) as [u|] eqn:Hu; [|discriminate]. simpl. intros [= <-].
    exists tts. split_and!; [done| |exists a, u; by rewrite udiv_dimensionless_l].
    simpl. by rewrite repeat_length.
Qed.

Lemma DDS_values_typed_witness :
  d_SINI_d_par timed_state "A0" = Ok (mkQ (np_zeros 2) (Some (uinv (ubase "s")))) ∧
  ∃ tts, tt0 timed_state = Ok (Some tts) ∧ nd_shape (np_zeros 2) = Some (length tts) ∧
    ∃ a u, lookup_attr timed_state "A0" = Ok a ∧ attr_unit a = Ok u ∧
      Some (uinv (ubase "s")) = Some (uinv u).
Proof.
  assert (H : d_SINI_d_par timed_state "A0" = Ok (mkQ (np_zeros 2) (Some (uinv (ubase "s")))))
    by (vm_compute; reflexivity).
  split; [exact H|].
  exact (proj2 (proj2 (DDS_values_typed timed_state)) "A0" _
                  ltac:(discriminate) ltac:(reflexivity) H).
Defined.

(** C4: for a parameter other than [SHAPMAX] whose value carries a unit
    [u], and with no instance attribute [d_SINI_d_<par>], [d_SINI_d_par]
    returns an exact zero array in the unit [1/u] (dimensionless divided
    by [u]) with [len(self.tt0)] entries: one per epoch when [T0] is a
    scalar, and whenever the number of epochs is not 1 (a single epoch
    broadcasts against a [T0] array). *)
Theorem d_SINI_d_par_zero s par qp u ts tts :
  par ≠ "SHAPMAX" → getattr s par = Ok qp → qunit qp = Some u →
  attrs s !! String.append "d_SINI_d_" par = None →
  t s = Some ts → tt0 s = Ok (Some tts) →
  ∃ zs, d_SINI_d_par s par = Ok (mkQ (Array zs) (Some (uinv u))) ∧
        length zs = length tts ∧ Forall (eq 0%R) zs ∧
        (∀ T0 x, getattr s "T0" = Ok T0 → qval T0 = Scalar x → length zs = length ts) ∧
        (length ts ≠ 1 → length zs = length ts).
Proof.
  intros Hp Hq Hu Hd Ht Htt.
  rewrite (d_SINI_d_par_fallback_ok s par (AttrValue qp) tts u);
    [..|unfold attr_unit, unit_attr; by rewrite Hu]; auto using lookup_attr_value.
  destruct (length_np_zeros (length tts)) as (zs & Hz & Hl & H0).
  exists zs. rewrite Hz, Hl. split_and!; [done..| |].
  - intros T0 x HT0 Hx. by eapply tt0_scalar_length.
  - by apply (tt0_length s).
Qed.

(** C5: [d_SINI_d_par] implements the generic [derivative_of] contract
    for [SINI]: when [SHAPMAX] is a dimensionless quantity, the
    parameter's value carries a unit and no instance attribute is named
    [d_SINI_d_<par>], both return the same value or raise the same error,
    for every parameter name. *)
Theorem d_SINI_d_par_refines s par q qp :
  attrs s !! "SHAPMAX" = Some q → qunit q = Some dimensionless →
  getattr s par = Ok qp → is_Some (qunit qp) →
  attrs s !! String.append "d_SINI_d_" par = None →
  d_SINI_d_par s par = derivative_of s "SINI" par.
Proof.
  intros Hs Hq Hp [u Hu] Hd. unfold derivative_of. rewrite derivative_of_SINI_rule.
  destruct (decide (par = "SHAPMAX")) as [->|Hne].
  - unfold d_SINI_d_par. rewrite (lookup_attr_value _ _ _ Hp). simpl (mbind _ _).
    unfold lookup_attr. rewrite rule_name_not_property, Hd. reflexivity.
  - rewrite (d_SINI_d_par_fallback s par (AttrValue qp)) by auto using lookup_attr_value.
    rewrite rule_name_method by done.
    assert (Hdl : dimless q) by (unfold dimless; auto).
    rewrite getattr_SINI, (SINI_get_dict s q Hs Hdl), Hp.
    unfold attr_unit, unit_attr. simpl. rewrite Hq, Hu. by destruct (tt0 s) as [[]|].
Qed.

Lemma d_SINI_d_par_refines_witness :
  attrs (setattr blank "SHAPMAX" (mkQ (Scalar 1) (Some dimensionless))) !! "SHAPMAX"
    = Some (mkQ (Scalar 1) (Some dimensionless)) ∧
  d_SINI_d_par (setattr blank "SHAPMAX" (mkQ (Scalar 1) (Some dimensionless))) "SHAPMAX"
    = derivative_of (setattr blank "SHAPMAX" (mkQ (Scalar 1) (Some dimensionless))) "SINI" "SHAPMAX".
Proof.
  split; [reflexivity|].
  apply (d_SINI_d_par_refines _ "SHAPMAX" (mkQ (Scalar 1) (Some dimensionless))
           (mkQ (Scalar 1) (Some dimensionless))); [reflexivity|reflexivity|reflexivity| |reflexivity].
  by eexists.
Defined.

(** C9: the error branches of [d_SINI_d_par].  A name that is neither a
    property, an attribute nor a method raises [getattr]'s
    [AttributeError]; an instance attribute named [d_SINI_d_<par>] shadows
    the lookup and calling it raises [TypeError]; otherwise, for a
    parameter other than [SHAPMAX], every error of [self.tt0] escapes (the
    [ValueError] of a [T0] array that does not broadcast against the
    epochs, the [UnitsError] of a [T0] that is not a time), an object with
    no epochs has [tt0 = None] and [len(None)] raises [TypeError], and a
    [par_obj] without [.unit] (a plain number, or a method) raises
    [AttributeError] once [len(self.tt0)] is computed. *)
Theorem d_SINI_d_par_errors s par :
  (∀ e, lookup_attr s par = Err e → d_SINI_d_par s par = Err e) ∧
  (∀ a q, lookup_attr s par = Ok a → attrs s !! String.append "d_SINI_d_" par = Some q →
     d_SINI_d_par s par = Err (TypeError "'Quantity' object is not callable")) ∧
  (∀ a, par ≠ "SHAPMAX" → lookup_attr s par = Ok a →
     attrs s !! String.append "d_SINI_d_" par = None →
     (∀ e, tt0 s = Err e → d_SINI_d_par s par = Err e) ∧
     (t s = None → d_SINI_d_par s par = Err t_unset_error) ∧
     (∀ e tts, attr_unit a = Err e → tt0 s = Ok (Some tts) → d_SINI_d_par s par = Err e)).
Proof.
  split_and!; [apply d_SINI_d_par_lookup_err| |].
  - intros a q Ha Hd. unfold d_SINI_d_par. rewrite Ha. simpl (mbind _ _).
    unfold lookup_attr. by rewrite rule_name_not_property, Hd.
  - intros a Hp Ha Hd. rewrite (d_SINI_d_par_fallback s par a) by done. split_and!.
    + intros e He. by rewrite He.
    + intros Ht. by rewrite tt0_None.
    + intros e tts He Htt. by rewrite Htt, He.
Qed.

Lemma d_SINI_d_par_errors_witness :
  d_SINI_d_par blank "A0" = Err (AttributeError "A0") ∧
  d_SINI_d_par shadowed_state "A0" = Err (TypeError "'Quantity' object is not callable") ∧
  d_SINI_d_par broadcast_state "A0" = Err (ValueError "operands could not be broadcast together") ∧
  d_SINI_d_par (set_attrs blank (<["A0" := plain 1]> ∅)) "A0" = Err t_unset_error ∧
  d_SINI_d_par epoch_state "A0" = Err (AttributeError "unit").
Proof.
  split_and!.
  - apply (proj1 (d_SINI_d_par_errors blank "A0")). reflexivity.
  - apply (proj1 (proj2 (d_SINI_d_par_errors shadowed_state "A0")) (AttrValue (plain 1)) (plain 0));
      reflexivity.
  - refine (proj1 (proj2 (proj2 (d_SINI_d_par_errors broadcast_state "A0"))
              (AttrValue (Binary.q 1 (ubase "s"))) _ _ _) _ _); reflexivity || discriminate.
  - refine (proj1 (proj2 (proj2 (proj2 (d_SINI_d_par_errors _ "A0")) (AttrValue (plain 1)) _ _ _)) _);
      reflexivity || discriminate.
  - refine (proj2 (proj2 (proj2 (proj2 (d_SINI_d_par_errors epoch_state "A0")) (AttrValue (plain 1))
              _ _ _)) _ (map (λ ti, ti * 86400 - 0 * 86400)%R [1%R]) _ _);
      (vm_compute; reflexivity) || discriminate.
Defined.

(** C20: when [SHAPMAX] holds a plain number [x] (its default [0] is one),
    the two entries of the derivative table of [SINI] about [SINI] itself
    are wrong: [d_SINI_d_par("SHAPMAX")] returns [-exp(x)] where the
    derivative is [exp(-x)], and [d_SINI_d_par("SINI")], whose derivative is
    1, raises [AttributeError] once [len(self.tt0)] is computed, because the value of
    the property, a plain number, has no [.unit]. *)
Theorem d_SINI_d_par_SINI_entries s x :
  attrs s !! "SHAPMAX" = Some (plain x) →
  attrs s !! "d_SINI_d_SHAPMAX" = None → attrs s !! "d_SINI_d_SINI" = None →
  d_SINI_d_par s "SHAPMAX" = Ok (plain (- exp x)) ∧
  (∀ tts, tt0 s = Ok (Some tts) → d_SINI_d_par s "SINI" = Err (AttributeError "unit")).
Proof.
  intros Hsh Hd1 Hd2. split.
  - assert (Ha : lookup_attr s "SHAPMAX" = Ok (AttrValue (plain x))).
    { apply lookup_attr_value. rewrite getattr_SHAPMAX. unfold getattr_dict. by rewrite Hsh. }
    unfold d_SINI_d_par. rewrite Ha. simpl (mbind _ _). unfold lookup_attr.
    rewrite rule_name_not_property. change (String.append "d_SINI_d_" "SHAPMAX")
      with "d_SINI_d_SHAPMAX". rewrite Hd1. simpl.
    rewrite d_SINI_d_SHAPMAX_cases, Hsh, decide_True by (by left). reflexivity.
  - intros tts Htt.
    assert (Ha : lookup_attr s "SINI" =
                   Ok (AttrValue (mkQ (nd_map (λ y, 1 - exp (- y))%R (Scalar x)) None))).
    { unfold lookup_attr. simpl bv_property. cbn [prop_get SINI].
      rewrite SINI_get_cases, Hsh, decide_True by (by left). reflexivity. }
    rewrite (d_SINI_d_par_fallback s "SINI" _ ltac:(discriminate) Ha Hd2).
    by rewrite Htt.
Qed.

Lemma d_SINI_d_par_SINI_entries_witness :
  d_SINI_d_par (setattr timed_state "SHAPMAX" (plain 0)) "SINI" = Err (AttributeError "unit").
Proof.
  apply (proj2 (d_SINI_d_par_SINI_entries (@setattr DDSmodel timed_state "SHAPMAX" (plain 0)) 0%R
                  ltac:(vm_compute; reflexivity) ltac:(vm_compute; reflexivity)
                  ltac:(vm_compute; reflexivity)) (map (λ ti, ti * 86400 - 0 * 86400)%R [1%R; 2%R])).
  vm_compute. reflexivity.
Defined.

(** ** The constructor *)

(** C12: from any prior state, [DDSmodel.__init__] succeeds and leaves
    exactly [DDS_initial_state]: the model is named [DDS]; its default
    table is the [PSR_BINARY] and [DD] defaults without [SINI], then
    [SHAPMAX]; [binary_params] still lists [SINI]; every default is stored
    over the attributes the object had (an attribute [SINI] it had is kept,
    as the property's setter stores nothing); the epochs are [None] whatever
    [t] is; and two [SINI] warnings are appended. *)
Theorem DDSmodel_init_spec t ip s : DDSmodel_init t ip s = Ok (DDS_initial_state s).
Proof.
  pose proof (DD_init_frame DDS_setters_only_warn s) as (Hn & Hd & Hb & Ht).
  pose proof (DD_init_warnings s) as Hw. pose proof (DD_init_attrs DDS_setters_only_warn s) as Ha.
  unfold DDSmodel_init. revert Hn Hd Hb Ht Hw Ha. generalize (DD_init s) as s2.
  intros s2 Hn Hd Hb Ht Hw Ha. cbv zeta.
  cbn [param_default_value binary_name binary_params attrs Binary.t warnings].
  rewrite Hd, dds_delitem, bind_Ok, (set_param_values_mkB DDS_setters_only_warn). f_equal.
  rewrite (DDS_init_attrs s s2), DDS_init_warnings by exact Ha.
  unfold DDS_initial_state. rewrite Ht, Hw. f_equal.
Qed.

(** C10: because the constructor drops its [t] argument, a freshly
    constructed model has no epochs, and [d_SINI_d_par] raises a
    [TypeError] for every existing parameter other than [SHAPMAX]. *)
Theorem DDSmodel_init_no_epochs t ip :
  ∃ s, DDSmodel_init t ip blank = Ok s ∧ Binary.t s = None ∧
    ∀ par qp, par ≠ "SHAPMAX" → getattr s par = Ok qp →
      d_SINI_d_par s par = Err t_unset_error.
Proof.
  exists dds_default. split; [apply DDSmodel_init_blank|].
  assert (Ht : Binary.t dds_default = None) by (vm_compute; reflexivity).
  split; [done|]. intros par qp Hp Hq.
  rewrite (d_SINI_d_par_fallback _ par (AttrValue qp)) by auto using lookup_attr_value,
    dds_default_no_rule_attr.
  unfold tt0. by rewrite Ht.
Qed.

Lemma DDSmodel_init_no_epochs_witness :
  d_SINI_d_par dds_default "A0" = Err t_unset_error.
Proof.
  destruct (DDSmodel_init_no_epochs (Some [1%R]) None) as (s & Hs & _ & H).
  rewrite DDSmodel_init_blank in Hs. injection Hs as <-.
  apply (H "A0" (Binary.q 0 (ubase "s"))); [done|vm_compute; reflexivity].
Defined.

Lemma d_SINI_d_par_zero_witness :
  ∃ zs, d_SINI_d_par timed_state "A0" = Ok (mkQ (Array zs) (Some (uinv (ubase "s")))) ∧
        length zs = length (map (λ ti, ti * 86400 - 0 * 86400)%R [1%R; 2%R]) ∧
        Forall (eq 0%R) zs ∧
        (∀ T0 x, getattr timed_state "T0" = Ok T0 → qval T0 = Scalar x → length zs = length [1%R; 2%R]) ∧
        (length [1%R; 2%R] ≠ 1 → length zs = length [1%R; 2%R]).
Proof.
  apply (d_SINI_d_par_zero timed_state "A0" (Binary.q 1 (ubase "s")) (ubase "s")
           [1%R; 2%R] (map (λ ti, ti * 86400 - 0 * 86400)%R [1%R; 2%R]));
    (vm_compute; reflexivity) || done.
Defined.

Lemma set_param_values_assigns_witness :
  getattr (set_param_values (mkB None [("A0", plain 1)] [] ∅ None [])) "A0" = Ok (plain 1).
Proof.
  apply (set_param_values_assigns DDS_setters_only_warn); [decide_concrete|decide_concrete|reflexivity|reflexivity].
Defined.

End DDS.
