(* ===== verification/DDSObject.v ===== *)
(** The life of a [DDSmodel] object after [DDSmodel()]: the caller assigns
    parameters ([model.SHAPMAX = v], [model.SINI = v], ...), calls
    [set_param_values()] again, and gives the epochs of an evaluation.  The
    operations are the data type [dds_op], one step is [exec], a sequence
    of steps is [run], and the states an object can be in are the
    inductive [reachable] (construction, then any step).

    The theorems hold along every sequence of operations: the default
    table, the parameter list and the name never change, [SINI] is never
    stored and [SHAPMAX] always is (so reading [SINI] can only fail on the
    units of [SHAPMAX]), each assignment to [SINI] logs exactly one warning
    and nothing else does, and [SINI] reads [1 - exp(-v)] for the value [v]
    that the last assignment to [SHAPMAX] or the last [set_param_values()]
    left. *)

From S2P Require Import Prelude PyDict Quantity BinaryGeneric DDS.
Import Quantity Binary DDS.

Module DDSObject.

(** What a caller does to a model object. *)
Inductive dds_op :=
  | Assign (name : string) (v : quantity)   (* [setattr(model, name, v)] *)
  | SetParamValues                         (* [model.set_param_values()] *)
  | SetEpochs (ts : list R).               (* the epochs [t] of an evaluation *)

Definition exec (s : bstate) (o : dds_op) : bstate :=
  match o with
  | Assign name v => setattr s name v
  | SetParamValues => set_param_values s
  | SetEpochs ts =>
      mkB (binary_name s) (param_default_value s) (binary_params s) (attrs s) (Some ts)
          (warnings s)
  end.

Definition run (s : bstate) (ops : list dds_op) : bstate := fold_left exec ops s.

Definition is_SINI_write (o : dds_op) : bool :=
  match o with Assign name _ => bool_decide (name = "SINI") | _ => false end.

Definition SINI_writes (ops : list dds_op) : nat := length (List.filter is_SINI_write ops).

(** The value of [SHAPMAX] after [ops], from the value [v]: the last
    assignment to it, or its default [0] after [set_param_values()]. *)
Definition shapmax_after (v : quantity) (ops : list dds_op) : quantity :=
  fold_left (λ v o,
    match o with
    | Assign name v' => if decide (name = "SHAPMAX") then v' else v
    | SetParamValues => plain 0
    | SetEpochs _ => v
    end) ops v.

(** The states of an object made by [DDSmodel()]. *)
Inductive reachable : bstate → Prop :=
  | reachable_init t ip s : DDSmodel_init t ip blank = Ok s → reachable s
  | reachable_step s o : reachable s → reachable (exec s o).

Definition dds_inv (s : bstate) : Prop :=
  binary_name s = Some "DDS" ∧
  param_default_value s = DDS_defaults_expected ∧
  binary_params s = DDS_binary_params_expected ∧
  attrs s !! "SINI" = None ∧
  is_Some (attrs s !! "SHAPMAX").

(** ** Lemmas *)

Lemma run_cons s o ops : run s (o :: ops) = run (exec s o) ops.
Proof. reflexivity. Qed.

Lemma exec_frame s o :
  binary_name (exec s o) = binary_name s ∧
  param_default_value (exec s o) = param_default_value s ∧
  binary_params (exec s o) = binary_params s.
Proof.
  destruct o as [n v| |ts]; cbn [exec].
  - destruct (setattr_frame DDS_setters_only_warn s n v) as (? & ? & ? & _). done.
  - destruct (fold_set_param_frame DDS_setters_only_warn (param_default_value s) s)
      as (? & ? & ? & _). done.
  - done.
Qed.

Lemma run_frame s ops :
  binary_name (run s ops) = binary_name s ∧
  param_default_value (run s ops) = param_default_value s ∧
  binary_params (run s ops) = binary_params s.
Proof.
  revert s. induction ops as [|o ops IH]; intros s; [done|].
  rewrite run_cons. destruct (IH (exec s o)) as (-> & -> & ->). apply exec_frame.
Qed.

Lemma dds_table_ok :
  PyDict.wf DDS_defaults_expected ∧ Forall (λ kv, str_upper kv.1 = kv.1) DDS_defaults_expected.
Proof. split; decide_concrete. Qed.

Lemma spv_attrs s k :
  param_default_value s = DDS_defaults_expected →
  attrs (set_param_values s) !! k =
    match PyDict.get DDS_defaults_expected k, bv_property k with
    | Some v, None => Some v
    | _, _ => attrs s !! k
    end.
Proof.
  intros Hd. rewrite (set_param_values_attrs DDS_setters_only_warn); rewrite Hd; [done|..];
    apply dds_table_ok.
Qed.

Lemma exec_SINI s o :
  param_default_value s = DDS_defaults_expected →
  attrs (exec s o) !! "SINI" = attrs s !! "SINI".
Proof.
  intros Hd. destruct o as [n v| |ts]; cbn [exec].
  - destruct (decide (n = "SINI")) as [->|Hn]; [reflexivity|].
    by apply (attrs_setattr_ne DDS_setters_only_warn).
  - by rewrite spv_attrs.
  - reflexivity.
Qed.

Lemma exec_SHAPMAX s o :
  param_default_value s = DDS_defaults_expected →
  attrs (exec s o) !! "SHAPMAX" =
    match o with
    | Assign n v => if decide (n = "SHAPMAX") then Some v else attrs s !! "SHAPMAX"
    | SetParamValues => Some (plain 0)
    | SetEpochs _ => attrs s !! "SHAPMAX"
    end.
Proof.
  intros Hd. destruct o as [n v| |ts]; cbn [exec].
  - case_decide as Hn; [subst; rewrite setattr_SHAPMAX; apply lookup_insert_eq|].
    by apply (attrs_setattr_ne DDS_setters_only_warn).
  - by rewrite spv_attrs.
  - reflexivity.
Qed.

Lemma exec_warnings s o :
  param_default_value s = DDS_defaults_expected →
  warnings (exec s o) = warnings s ++ (if is_SINI_write o then [SINI_warning] else []).
Proof.
  intros Hd. destruct o as [n v| |ts]; cbn [exec is_SINI_write].
  - destruct (decide (n = "SINI")) as [->|Hn]; [reflexivity|].
    rewrite bool_decide_eq_false_2 by done. unfold setattr.
    rewrite dds_property_None by done. by rewrite app_nil_r.
  - by rewrite dds_spv_warnings, Hd, dds_table_no_SINI.
  - by rewrite app_nil_r.
Qed.

Lemma run_warnings s ops :
  param_default_value s = DDS_defaults_expected →
  warnings (run s ops) = warnings s ++ repeat SINI_warning (SINI_writes ops).
Proof.
  revert s. induction ops as [|o ops IH]; intros s Hd.
  - by rewrite app_nil_r.
  - destruct (exec_frame s o) as (_ & Hd' & _).
    rewrite run_cons, IH by congruence. rewrite exec_warnings by done.
    unfold SINI_writes. cbn [List.filter]. rewrite <- app_assoc.
    destruct (is_SINI_write o); reflexivity.
Qed.

Lemma run_SHAPMAX s ops v :
  param_default_value s = DDS_defaults_expected → attrs s !! "SHAPMAX" = Some v →
  attrs (run s ops) !! "SHAPMAX" = Some (shapmax_after v ops).
Proof.
  revert s v. induction ops as [|o ops IH]; intros s v Hd Hv; [done|]. rewrite run_cons.
  destruct (exec_frame s o) as (_ & Hd' & _).
  unfold shapmax_after. cbn [fold_left]. apply IH; [congruence|].
  rewrite exec_SHAPMAX by done. destruct o; [case_decide|..]; done.
Qed.

(** No key of the default table is a rule name [d_SINI_d_<par>]. *)
Lemma table_no_rule_name par :
  PyDict.get DDS_defaults_expected (String.append "d_SINI_d_" par) = None.
Proof.
  apply PyDict.get_None_notin. intros Hin.
  assert (Hall : Forall (λ k, String.substring 0 1 k ≠ "d") (PyDict.keys DDS_defaults_expected))
    by decide_concrete.
  by apply (proj1 (Forall_forall _ _) Hall _ Hin).
Qed.

(** After [set_param_values()] every default is stored and read back. *)
Lemma spv_getattr s k q :
  param_default_value s = DDS_defaults_expected →
  PyDict.get DDS_defaults_expected k = Some q →
  bv_property k = None ∧ attrs (set_param_values s) !! k = Some q.
Proof.
  intros Hd Hk. assert (Hp : bv_property k = None).
  { apply dds_property_None. intros ->. discriminate. }
  split; [done|]. by rewrite spv_attrs, Hk, Hp.
Qed.

Lemma initial_state_attrs s0 k :
  attrs (DDS_initial_state s0) !! k =
    match PyDict.get DDS_defaults_expected k with Some v => Some v | None => attrs s0 !! k end.
Proof. apply PyDict.lookup_union_to_map. Qed.

(** ** Theorems *)

(** C13: every state of a [DDSmodel] object, after any sequence of
    assignments, [set_param_values()] calls and epoch updates, keeps the
    name [DDS], the default table and the parameter list of construction,
    never stores [SINI] in its instance dict and always stores [SHAPMAX]. *)
Theorem reachable_dds_inv s : reachable s → dds_inv s.
Proof.
  induction 1 as [t ip s Hs|s o _ (Hn & Hd & Hb & Hsini & Hsh)].
  - rewrite DDSmodel_init_spec in Hs. injection Hs as <-.
    split_and!; [done..| |]; rewrite initial_state_attrs; [done|by eexists].
  - destruct (exec_frame s o) as (Hn' & Hd' & Hb').
    split_and!; [congruence|congruence|congruence|by rewrite exec_SINI|].
    rewrite exec_SHAPMAX by done. destruct o; [case_decide|..]; by eauto.
Qed.

Lemma reachable_dds_inv_witness :
  dds_inv (exec (exec dds_default (Assign "SINI" (plain 1))) SetParamValues).
Proof.
  apply reachable_dds_inv.
  apply reachable_step, reachable_step, (reachable_init None None), DDSmodel_init_blank.
Defined.

(** C16: in every state of a [DDSmodel] object, reading [SINI] can fail
    only with the [UnitsError] of a dimensioned [SHAPMAX]: never with an
    [AttributeError], whatever was assigned before. *)
Theorem reachable_SINI_errors s e :
  reachable s → getattr s "SINI" = Err e → e = UnitsError "exp of a dimensioned quantity".
Proof.
  intros Hr. destruct (reachable_dds_inv s Hr) as (_ & _ & _ & _ & [q Hq]).
  rewrite getattr_SINI, SINI_get_cases, Hq. case_decide; congruence.
Qed.

Lemma reachable_SINI_errors_witness :
  getattr (exec dds_default (Assign "SHAPMAX" (Binary.q 1 (ubase "s")))) "SINI" =
    Err (UnitsError "exp of a dimensioned quantity") ∧
  UnitsError "exp of a dimensioned quantity" = UnitsError "exp of a dimensioned quantity".
Proof.
  split; [|apply (reachable_SINI_errors (exec dds_default (Assign "SHAPMAX" (Binary.q 1 (ubase "s"))))
                   (UnitsError "exp of a dimensioned quantity"))].
  - rewrite getattr_SINI, SINI_get_cases. cbn [exec]. rewrite setattr_SHAPMAX, lookup_insert_eq.
    rewrite decide_False; [done|]. by intros [H|H]; simplify_eq/=.
  - apply reachable_step, (reachable_init None None), DDSmodel_init_blank.
  - rewrite getattr_SINI, SINI_get_cases. cbn [exec]. rewrite setattr_SHAPMAX, lookup_insert_eq.
    rewrite decide_False; [done|]. by intros [H|H]; simplify_eq/=.
Defined.

(** C14: after construction, along any sequence of operations, the
    warnings logged are the two of construction and then exactly one per
    assignment to [SINI], and nothing else logs a warning. *)
Theorem run_SINI_warnings t ip s0 s ops :
  DDSmodel_init t ip s0 = Ok s →
  warnings (run s ops) =
    warnings s0 ++ [SINI_warning; SINI_warning] ++ repeat SINI_warning (SINI_writes ops).
Proof.
  rewrite DDSmodel_init_spec. intros [= <-].
  rewrite run_warnings by done. cbn [warnings DDS_initial_state]. by rewrite <- app_assoc.
Qed.

Lemma run_SINI_warnings_witness :
  warnings (run dds_default [Assign "SINI" (plain 1); SetParamValues; Assign "SHAPMAX" (plain 2);
                             Assign "SINI" (plain 3)]) =
    [] ++ [SINI_warning; SINI_warning] ++ repeat SINI_warning 2.
Proof. apply (run_SINI_warnings None None blank), DDSmodel_init_blank. Defined.

(** C15: along any sequence of operations after construction, [SHAPMAX]
    holds the value of the last assignment to it, or its default [0] if
    [set_param_values()] came later; assignments to [SINI] and to other
    names do not touch it, and [SINI] then reads [1 - exp(-v)] of that
    value [v] when [np.exp] accepts it. *)
Theorem run_SINI_reads_last_SHAPMAX t ip s0 s ops :
  DDSmodel_init t ip s0 = Ok s →
  attrs (run s ops) !! "SHAPMAX" = Some (shapmax_after (plain 0) ops) ∧
  (dimless (shapmax_after (plain 0) ops) →
   getattr (run s ops) "SINI" =
     Ok (mkQ (nd_map (λ x, 1 - exp (- x))%R (qval (shapmax_after (plain 0) ops)))
             (qunit (shapmax_after (plain 0) ops)))).
Proof.
  rewrite DDSmodel_init_spec. intros [= <-].
  assert (Hsh : attrs (run (DDS_initial_state s0) ops) !! "SHAPMAX" =
                  Some (shapmax_after (plain 0) ops))
    by (apply run_SHAPMAX; [done|by rewrite initial_state_attrs]).
  split; [done|]. intros Hdl. rewrite getattr_SINI. by apply SINI_get_dict.
Qed.

Lemma run_SINI_reads_last_SHAPMAX_witness :
  getattr (run dds_default [Assign "SHAPMAX" (plain 1); Assign "SINI" (plain 0)]) "SINI" =
    Ok (mkQ (Scalar (1 - exp (- 1))) None).
Proof.
  rewrite (proj2 (run_SINI_reads_last_SHAPMAX None None blank dds_default
                    [Assign "SHAPMAX" (plain 1); Assign "SINI" (plain 0)]
                    (DDSmodel_init_blank None None))); [reflexivity|by left].
Defined.

(** C18: from every state of a [DDSmodel] object, calling
    [set_param_values()] and then giving epochs [ts] leads to a state
    where [SINI] reads 0 and [d_SINI_d_par] succeeds for every default
    parameter with a unit other than [SHAPMAX] (unless the caller stored an
    attribute [d_SINI_d_<par>]): an exact zero array with one entry per
    epoch in the unit [1/unit(par)]. *)
Theorem reachable_recovers s ts :
  reachable s →
  getattr (run s [SetParamValues; SetEpochs ts]) "SINI" = Ok (plain 0) ∧
  ∀ par q u, PyDict.get DDS_defaults_expected par = Some q → qunit q = Some u →
    par ≠ "SHAPMAX" → attrs s !! String.append "d_SINI_d_" par = None →
    ∃ zs, d_SINI_d_par (run s [SetParamValues; SetEpochs ts]) par =
            Ok (mkQ (Array zs) (Some (uinv u))) ∧
          length zs = length ts ∧ Forall (eq 0%R) zs.
Proof.
  intros Hr. destruct (reachable_dds_inv s Hr) as (_ & Hd & _ & _ & _).
  pose proof (exec_SHAPMAX s SetParamValues Hd) as Hsh. cbn [exec] in Hsh.
  cbn [run fold_left exec]. split.
  - rewrite getattr_SINI, SINI_get_cases. cbn [attrs]. rewrite Hsh.
    rewrite decide_True by (by left). simpl. by rewrite sini_expr_0.
  - intros par q u Hq Hu Hp Hshadow.
    destruct (spv_getattr s par q Hd Hq) as [Hpp Hpar].
    destruct (spv_getattr s "T0" (Binary.q 54000 (ubase "d")) Hd eq_refl) as [_ HT0].
    destruct (length_np_zeros (length (map (λ ti, ti * 86400 - 54000 * 86400)%R ts)))
      as (zs & Hz & Hl & H0).
    exists zs. rewrite <-Hz. split_and!; [|by rewrite Hl, length_map|done].
    apply (d_SINI_d_par_fallback_ok _ par (AttrValue q)); [done| | | |].
    + unfold lookup_attr. rewrite Hpp. cbn [attrs]. by rewrite Hpar.
    + cbn [attrs]. by rewrite spv_attrs, table_no_rule_name.
    + unfold tt0, getattr, getattr_dict. cbn [Binary.t attrs bv_property DDSmodel].
      rewrite HT0. simpl. by rewrite get_tt0_day.
    + unfold attr_unit, unit_attr. by rewrite Hu.
Qed.

Lemma reachable_recovers_witness :
  ∃ zs, d_SINI_d_par (run dds_default [SetParamValues; SetEpochs [1%R; 2%R]]) "A0" =
          Ok (mkQ (Array zs) (Some (uinv (ubase "s")))) ∧
        length zs = length [1%R; 2%R] ∧ Forall (eq 0%R) zs.
Proof.
  apply (proj2 (reachable_recovers dds_default [1%R; 2%R]
                  (reachable_init None None _ (DDSmodel_init_blank None None)))
           "A0" (Binary.q 0 (ubase "s"))); [reflexivity|reflexivity|discriminate|].
  apply dds_default_no_rule_attr.
Defined.

End DDSObject.
