(* ===== verification/LinAlg.v ===== *)
(** Vectors and matrices of reals as lists (a matrix is its list of rows),
    with the numpy operations the fitter uses: sums, dot products,
    matrix-vector products, transposition, diagonal matrices and row
    scaling.  The lemmas give lengths and the few algebraic identities the
    fitter's theorems need. *)

From Stdlib Require Export Reals Lra.
From S2P Require Import Prelude.

Module LinAlg.

Local Open Scope R_scope.

Abbreviation vec := (list R).
Abbreviation mat := (list (list R)).

Definition vsum (v : vec) : R := fold_right Rplus 0 v.
Definition dot (u v : vec) : R := vsum (zip_with Rmult u v).
Definition vsub (u v : vec) : vec := zip_with Rminus u v.
Definition vadd (u v : vec) : vec := zip_with Rplus u v.
Definition mat_vec (A : mat) (x : vec) : vec := map (λ row, dot row x) A.

(** Column [j] of [A] ([A[:, j]]). *)
Definition col (A : mat) (j : nat) : vec := map (λ row, nth j row 0) A.

(** The [n] columns of [A] as rows ([A.T]). *)
Definition transpose (n : nat) (A : mat) : mat := map (col A) (seq 0 n).

(** [np.diag(d)] *)
Definition diag (d : vec) : mat :=
  imap (λ i x, imap (λ j _, if decide (i = j) then x else 0) d) d.

(** Every row has [n] entries. *)
Definition ncols (n : nat) (A : mat) : Prop := Forall (λ row, length row = n) A.

(** [M / sigma[:, None]]: row [i] divided by [sigma[i]]. *)
Definition scale_rows (sigma : vec) (A : mat) : mat :=
  zip_with (λ s row, map (λ x, x / s) row) sigma A.

(** [r / sigma] *)
Definition scale_vec (sigma : vec) (r : vec) : vec := zip_with (λ s x, x / s) sigma r.

(** [np.eye(n)] *)
Definition ident (n : nat) : mat :=
  map (λ i, map (λ j, if decide (i = j) then 1 else 0) (seq 0 n)) (seq 0 n).

(** [A @ B] for a [B] with [n] columns. *)
Definition mat_mul (n : nat) (A B : mat) : mat :=
  map (λ row, map (λ j, dot row (col B j)) (seq 0 n)) A.

(** [W] is a (right) inverse of the square matrix [C]. *)
Definition inverse_of (C W : mat) : Prop := mat_mul (length C) C W = ident (length C).

(** ** Lemmas *)

Lemma length_mat_vec A x : length (mat_vec A x) = length A.
Proof. apply length_map. Qed.

Lemma length_col A j : length (col A j) = length A.
Proof. apply length_map. Qed.

Lemma length_transpose n A : length (transpose n A) = n.
Proof. unfold transpose. by rewrite length_map, length_seq. Qed.

Lemma ncols_app n A B : ncols n (A ++ B) ↔ ncols n A ∧ ncols n B.
Proof. apply Forall_app. Qed.

Lemma vsum_app u v : vsum (u ++ v) = vsum u + vsum v.
Proof. induction u; simpl; [ring|]. rewrite IHu. ring. Qed.

Lemma vsub_self u : vsub u u = repeat 0 (length u).
Proof. induction u; simpl; [done|]. rewrite IHu, Rminus_diag. done. Qed.

Lemma length_diag d : length (diag d) = length d.
Proof. unfold diag. apply length_imap. Qed.

Lemma length_scale_rows sigma A :
  length sigma = length A → length (scale_rows sigma A) = length A.
Proof. intros. unfold scale_rows. rewrite length_zip_with. lia. Qed.

End LinAlg.
