(* ===== verification/Fitter.v ===== *)
(** The generalized multi-dataset fitter, [WidebandTOAFitter]
    (pint/fitter.py and pint/residuals.py, not files of this repository:
    modelled from the specification and from what
    src/tests/test_widebandTOA_fitting.py exercises).

    The timing model is its ordered parameter names and a map from name to
    value and [frozen] flag.  What the fitter asks the model and the TOAs
    for (residuals, uncertainties, derivative columns, the [Offset] column)
    is the interface [TimingPhysics]; the fitter's theorems hold for every
    instance of it.  A [combined] residual object keeps one residual object
    per residual kind, in the order of [fit_data_name]; the design matrix
    has one block of rows per kind and the columns [Offset] and the free
    parameters. *)

From S2P Require Import Prelude PyDict LinAlg.
Import LinAlg.

Module Fitter.

(** ** Data *)

Inductive rkind := Toa | Dm.

#[export] Instance rkind_eq_dec : EqDecision rkind.
Proof. solve_decision. Defined.

Definition rkind_label (k : rkind) : string :=
  match k with Toa => "toa" | Dm => "dm" end.

(** [WidebandTOAFitter]'s residual kinds, in order. *)
Definition fit_data_name : list rkind := [Toa; Dm].

Record param := mkParam { pvalue : R; pfrozen : bool }.

(** A timing model: its parameter names in order and their values. *)
Record tmodel := mkModel { params : list string; pmap : gmap string param }.

Definition model_wf (m : tmodel) : Prop :=
  NoDup (params m) ∧ dom (pmap m) = list_to_set (params m).

#[export] Instance model_wf_dec m : Decision (model_wf m).
Proof. unfold model_wf. solve_decision. Defined.

Definition value_of (m : tmodel) (p : string) : R :=
  match pmap m !! p with Some q => pvalue q | None => 0%R end.

(** What the fitter queries of the model and the TOAs: the number of
    entries of each residual kind, the residuals (measured minus predicted)
    and uncertainties at given parameter values, the derivative column of
    each kind for each parameter, the entries of the [Offset] column and
    the full covariance of the combined residuals. *)
Class TimingPhysics := {
  nres : rkind → nat;
  resid_of : rkind → (string → R) → vec;
  sigma_of : rkind → vec;
  deriv_of : rkind → string → (string → R) → vec;
  offset_of : rkind → R;
  full_cov : mat;
  resid_len : ∀ k v, length (resid_of k v) = nres k;
  sigma_len : ∀ k, length (sigma_of k) = nres k;
  full_cov_len : length full_cov = nres Toa + nres Dm;
  resid_ext : ∀ k v v', (∀ p, v p = v' p) → resid_of k v = resid_of k v';
  deriv_ext : ∀ k p v v', (∀ q, v q = v' q) → deriv_of k p v = deriv_of k p v'
}.

(** Residuals and derivatives depend on the parameter values only. *)
#[export] Instance resid_of_proper `{TimingPhysics} :
  Proper (eq ==> pointwise_relation string eq ==> eq) resid_of.
Proof. intros k ? <- v v' Hv. by apply resid_ext. Qed.

#[export] Instance deriv_of_proper `{TimingPhysics} :
  Proper (eq ==> eq ==> pointwise_relation string eq ==> eq) deriv_of.
Proof. intros k ? <- p ? <- v v' Hv. by apply deriv_ext. Qed.

Section Fitter.
Context `{TimingPhysics}.

(** ** Residuals *)

Record resid_obj := mkRes { subtract_mean : bool; resids : vec; errors : vec }.

Definition weighted_mean (r sigma : vec) : R :=
  (vsum (zip_with (λ x s, x / (s * s)) r sigma) / vsum (map (λ s, 1 / (s * s)) sigma))%R.

(** [rms_weighted()] *)
Definition rms_weighted (o : resid_obj) : R :=
  sqrt (vsum (zip_with (λ x s, x * x / (s * s)) (resids o) (errors o)) /
        vsum (map (λ s, 1 / (s * s)) (errors o)))%R.

Definition default_subtract_mean (k : rkind) : bool :=
  match k with Toa => true | Dm => false end.

(** The residual object of kind [k] at the model's current values. *)
Definition make_resid_obj (k : rkind) (sub : bool) (m : tmodel) : resid_obj :=
  let r := resid_of k (value_of m) in
  let sigma := sigma_of k in
  mkRes sub (if sub then map (λ x, x - weighted_mean r sigma)%R r else r) sigma.

(** [additional_args]: constructor keyword arguments per residual kind. *)
Abbreviation fit_args := (PyDict.dict (PyDict.dict bool)).

Definition resid_kwargs : list string := ["subtract_mean"].

Definition check_args (args : fit_args) : res () :=
  match list_find (λ kv, kv.1 ∉ map rkind_label fit_data_name) args with
  | Some (_, kv) => Err (ConfigError kv.1)
  | None =>
      match list_find (λ kv, Exists (λ o, o.1 ∉ resid_kwargs) kv.2) args with
      | Some _ => Err (TypeError "__init__() got an unexpected keyword argument")
      | None => Ok ()
      end
  end.

Definition subtract_mean_for (k : rkind) (args : fit_args) : bool :=
  match PyDict.get args (rkind_label k) ≫= λ o, PyDict.get o "subtract_mean" with
  | Some b => b
  | None => default_subtract_mean k
  end.

Record combined := mkComb { residual_objs : list (rkind * resid_obj) }.

(** [_combined_resids]: the residual vectors in kind order. *)
Definition combined_resids (c : combined) : vec := concat (map (λ kr, resids kr.2) (residual_objs c)).
Definition combined_errors (c : combined) : vec := concat (map (λ kr, errors kr.2) (residual_objs c)).

(** Row-block labels [(kind, (start, end))] of consecutive blocks. *)
Fixpoint block_labels (start : nat) (sizes : list (string * nat)) : list (string * (nat * nat)) :=
  match sizes with
  | [] => []
  | (l, n) :: rest => (l, (start, start + n)) :: block_labels (start + n) rest
  end.

Definition make_combined (m : tmodel) (args : fit_args) : combined :=
  mkComb (map (λ k, (k, make_resid_obj k (subtract_mean_for k args) m)) fit_data_name).

(** ** The fitter *)

Record fitter := mkFitter {
  model : tmodel;
  fargs : fit_args;
  resids_init : combined;
  resids_now : combined
}.

(** [WidebandTOAFitter(toas, model, additional_args)] *)
Definition WidebandTOAFitter_init (m : tmodel) (args : fit_args) : res fitter :=
  _ ← check_args args;
  let c := make_combined m args in
  Ok (mkFitter m args c c).

Definition set_frozen (names : list string) (m : tmodel) : tmodel :=
  mkModel (params m)
    (map_imap (λ p q, Some (mkParam (pvalue q) (bool_decide (p ∉ names)))) (pmap m)).

(** [set_fitparams(names)]: an unknown name is a configuration error;
    otherwise every parameter is frozen exactly when it is not named. *)
Definition set_fitparams (f : fitter) (names : list string) : res fitter :=
  match list_find (λ n, n ∉ params (model f)) names with
  | Some (_, n) => Err (ConfigError n)
  | None => Ok (mkFitter (set_frozen names (model f)) (fargs f) (resids_init f) (resids_now f))
  end.

Definition is_free (m : tmodel) (p : string) : bool :=
  match pmap m !! p with Some q => negb (pfrozen q) | None => false end.

(** [get_fitparams()]: the free parameters, in the model's order. *)
Definition get_fitparams (f : fitter) : list string :=
  filter (λ p, is_free (model f) p = true) (params (model f)).

(** ** The design matrix *)

Record designmatrix := mkDM {
  dm_matrix : mat;
  dm_labels : list (string * (nat * nat));
  derivative_params : list string
}.

Definition design_block (k : rkind) (fp : list string) (v : string → R) : mat :=
  map (λ i, offset_of k :: map (λ p, nth i (deriv_of k p v) 0%R) fp) (seq 0 (nres k)).

(** [get_designmatrix()] *)
Definition get_designmatrix (f : fitter) : designmatrix :=
  let fp := get_fitparams f in
  let v := value_of (model f) in
  mkDM (concat (map (λ k, design_block k fp v) fit_data_name))
       (block_labels 0 (map (λ k, (rkind_label k, nres k)) fit_data_name))
       ("Offset" :: fp).

Fixpoint lookup_kind (k : rkind) (l : list (rkind * resid_obj)) : option resid_obj :=
  match l with
  | [] => None
  | (k', o) :: l' => if decide (k' = k) then Some o else lookup_kind k l'
  end.

(** [residual_objs[label]] *)
Definition residual_obj (c : combined) (k : rkind) : option resid_obj :=
  lookup_kind k (residual_objs c).

(** [(kind, (start, end))] for each residual object of [c]. *)
Definition combined_labels (c : combined) : list (string * (nat * nat)) :=
  block_labels 0 (map (λ kr, (rkind_label kr.1, length (resids kr.2))) (residual_objs c)).

(** ** Lemmas *)

Lemma model_wf_lookup m p : model_wf m → p ∈ params m ↔ is_Some (pmap m !! p).
Proof.
  intros [_ Hdom]. rewrite <- elem_of_dom, Hdom. by rewrite elem_of_list_to_set.
Qed.

Lemma length_design_block k fp v : length (design_block k fp v) = nres k.
Proof. unfold design_block. by rewrite length_map, length_seq. Qed.

Lemma ncols_design_block k fp v : ncols (S (length fp)) (design_block k fp v).
Proof.
  unfold design_block, ncols. apply Forall_forall. intros row Hrow.
  apply list_elem_of_In, in_map_iff in Hrow as (i & <- & _). simpl. by rewrite length_map.
Qed.

Lemma is_free_set_frozen names m p :
  is_free (set_frozen names m) p =
    match pmap m !! p with Some _ => bool_decide (p ∈ names) | None => false end.
Proof.
  unfold is_free, set_frozen. simpl. rewrite map_lookup_imap.
  destruct (pmap m !! p); simpl; [|done].
  destruct (bool_decide_reflect (p ∉ names)), (bool_decide_reflect (p ∈ names)); naive_solver.
Qed.

Lemma set_fitparams_Ok f names f' :
  set_fitparams f names = Ok f' →
  Forall (λ n, n ∈ params (model f)) names ∧
  f' = mkFitter (set_frozen names (model f)) (fargs f) (resids_init f) (resids_now f).
Proof.
  unfold set_fitparams. destruct (list_find _ names) as [[i n]|] eqn:E; [discriminate|].
  intros [= <-]. split; [|done].
  apply list_find_None in E. eapply Forall_impl; [exact E|]. intros n Hn. by apply dec_stable.
Qed.

(** Blocks laid end to end: every label names one block, its range has the
    block's length, and indexing the concatenation inside the range reads
    the block. *)
Lemma block_labels_concat (blocks : list (string * vec)) start l s e :
  (l, (s, e)) ∈ block_labels start (map (λ b, (b.1, length b.2)) blocks) →
  ∃ v, (l, v) ∈ blocks ∧ start ≤ s ∧ e - s = length v ∧
       ∀ i, i < length v → concat (map snd blocks) !! (s - start + i) = v !! i.
Proof.
  revert start. induction blocks as [|[l' v'] blocks IH]; intros start; simpl; [set_solver|].
  rewrite elem_of_cons. intros [[= -> -> ->] | Hin].
  - exists v'. split_and!; [by left|lia|lia|].
    intros i Hi. rewrite Nat.sub_diag. simpl. by rewrite lookup_app_l.
  - destruct (IH _ Hin) as (v & Hv & Hs & He & Hget).
    exists v. split_and!; [by right|lia|done|].
    intros i Hi. rewrite lookup_app_r by lia.
    rewrite <- Hget by done. f_equal. lia.
Qed.

Lemma residual_obj_make m args k :
  residual_obj (make_combined m args) k = Some (make_resid_obj k (subtract_mean_for k args) m).
Proof. by destruct k. Qed.

Lemma length_make_resids k sub m : length (resids (make_resid_obj k sub m)) = nres k.
Proof. unfold make_resid_obj. destruct sub; simpl; rewrite ?length_map; apply resid_len. Qed.

Lemma make_resid_obj_ext k sub m m' :
  resid_of k (value_of m) = resid_of k (value_of m') →
  make_resid_obj k sub m = make_resid_obj k sub m'.
Proof. intros He. unfold make_resid_obj. by rewrite He. Qed.

Lemma make_combined_ext m m' args :
  (∀ p, value_of m p = value_of m' p) → make_combined m args = make_combined m' args.
Proof.
  intros Hv. unfold make_combined. f_equal. apply map_ext. intros k. f_equal.
  apply make_resid_obj_ext. by rewrite (resid_ext k _ _ Hv).
Qed.

Lemma length_combined_resids_make m args :
  length (combined_resids (make_combined m args)) = nres Toa + nres Dm.
Proof.
  unfold combined_resids, make_combined. cbn [residual_objs map fit_data_name concat snd].
  by rewrite app_nil_r, length_app, !length_make_resids.
Qed.

Lemma length_combined_errors_make m args :
  length (combined_errors (make_combined m args)) = nres Toa + nres Dm.
Proof. unfold combined_errors. simpl. rewrite app_nil_r, length_app, !sigma_len. done. Qed.

Lemma length_designmatrix f : length (dm_matrix (get_designmatrix f)) = nres Toa + nres Dm.
Proof. simpl. by rewrite app_nil_r, length_app, !length_design_block. Qed.

Lemma value_of_set_frozen names m p : value_of (set_frozen names m) p = value_of m p.
Proof.
  unfold value_of, set_frozen. simpl. rewrite map_lookup_imap. by destruct (pmap m !! p).
Qed.

Lemma get_fitparams_set_frozen f names args ri rn :
  model_wf (model f) → Forall (λ n, n ∈ params (model f)) names →
  ∀ p, p ∈ get_fitparams (mkFitter (set_frozen names (model f)) args ri rn) ↔ p ∈ names.
Proof.
  intros Hwf Hall p. pose proof (model_wf_lookup _ p Hwf) as Hdom. unfold get_fitparams. simpl.
  rewrite list_elem_of_filter, is_free_set_frozen. split.
  - intros [Hf Hp]. destruct (pmap (model f) !! p); [|discriminate].
    by apply bool_decide_eq_true in Hf.
  - intros Hp. assert (Hm : p ∈ params (model f)) by exact (proj1 (Forall_forall _ _) Hall p Hp).
    split; [|done]. destruct (proj1 Hdom Hm) as [q ->]. by apply bool_decide_eq_true.
Qed.

Lemma ncols_designmatrix f : ncols (S (length (get_fitparams f))) (dm_matrix (get_designmatrix f)).
Proof. simpl. rewrite app_nil_r. apply ncols_app. split; apply ncols_design_block. Qed.

(** ** Theorems *)

(** the design matrix has one row per combined residual entry (the TOA
    block, then the DM block) and one column per free parameter plus the
    leading [Offset] column; its row labels are [toa] then [dm] with their
    index ranges, and its column labels are [Offset] followed by the free
    parameters in fit order. *)
Theorem designmatrix_shape f :
  let d := get_designmatrix f in
  length (dm_matrix d) = nres Toa + nres Dm ∧
  ncols (S (length (get_fitparams f))) (dm_matrix d) ∧
  dm_labels d = [("toa", (0, nres Toa)); ("dm", (nres Toa, nres Toa + nres Dm))] ∧
  derivative_params d = "Offset" :: get_fitparams f.
Proof.
  split_and!; [apply length_designmatrix|apply ncols_designmatrix|done|done].
Qed.

(** [get_fitparams()] after [set_fitparams(names)] has exactly the
    members of [names], for a well-formed model. *)
Theorem fitparams_roundtrip f names f' :
  model_wf (model f) →
  set_fitparams f names = Ok f' →
  ∀ p, p ∈ get_fitparams f' ↔ p ∈ names.
Proof. intros Hwf (Hall & ->)%set_fitparams_Ok. by apply get_fitparams_set_frozen. Qed.

(** [set_fitparams] with a name the model does not have fails with a
    configuration error naming an unknown parameter, before anything is
    changed. *)
Theorem set_fitparams_unknown f names n :
  n ∈ names → n ∉ params (model f) →
  ∃ n', set_fitparams f names = Err (ConfigError n') ∧ n' ∈ names ∧ n' ∉ params (model f).
Proof.
  intros Hn Hm. unfold set_fitparams.
  destruct (list_find _ names) as [[i n']|] eqn:E.
  - apply list_find_Some in E as (Hi & Hn' & _).
    exists n'. split_and!; [done| |done]. by eapply list_elem_of_lookup_2.
  - apply list_find_None in E. by destruct (proj1 (Forall_forall _ _) E n Hn).
Qed.

(** the combined residual vector is the residual objects' vectors
    laid end to end, and each label [(kind, (start, end))] maps its index
    range back to the residual object of that kind. *)
Theorem combined_labels_roundtrip c l s e :
  (l, (s, e)) ∈ combined_labels c →
  ∃ k o, (k, o) ∈ residual_objs c ∧ rkind_label k = l ∧ e - s = length (resids o) ∧
    ∀ i, i < length (resids o) → combined_resids c !! (s + i) = resids o !! i.
Proof.
  intros Hin. unfold combined_labels, combined_resids in *.
  set (blocks := map (λ kr, (kr, resids kr.2)) (residual_objs c)).
  assert (Hb : map (λ kr, (rkind_label kr.1, length (resids kr.2))) (residual_objs c) =
               map (λ b, (rkind_label b.1.1, length b.2)) blocks)
    by (subst blocks; by rewrite map_map).
  assert (Hc : map (λ kr, resids kr.2) (residual_objs c) = map snd blocks)
    by (subst blocks; by rewrite map_map).
  set (lblocks := map (λ b, (rkind_label b.1.1, b.2)) blocks).
  assert (Hl : map (λ b, (rkind_label b.1.1, length b.2)) blocks =
               map (λ b, (b.1, length b.2)) lblocks) by (subst lblocks; by rewrite map_map).
  rewrite Hb, Hl in Hin. rewrite Hc.
  destruct (block_labels_concat lblocks 0 l s e Hin) as (v & Hv & _ & He & Hget).
  subst lblocks. apply list_elem_of_fmap in Hv as ([[k o] v'] & [= -> ->] & Hkv).
  subst blocks. apply list_elem_of_fmap in Hkv as ([k' o'] & [= <- <- ->] & Hko).
  exists k, o. split_and!; [done|done|done|].
  intros i Hi. by rewrite <- (Hget i Hi), !map_map, Nat.sub_0_r.
Qed.

End Fitter.

End Fitter.
