(* ===== verification/FitStep.v ===== *)
(** One fitting step of [WidebandTOAFitter.fit_toas(full_cov)] and its
    iteration (pint/fitter.py, modelled from the specification): the
    combined residuals and the design matrix at the current values, the
    generalized least-squares correction with the block-diagonal weights
    [sigma^2] or the full covariance, the correction added to the free
    parameters (the [Offset] entry is not a parameter), and the residuals
    recomputed from the new values.

    The linear algebra is the interface [GLSSolver]: a solver returns a
    correction that satisfies the weighted normal equations, raises
    [LinAlgError] for a covariance with no inverse, and raises nothing
    else.  The theorems hold for every solver with these laws. *)

From S2P Require Import Prelude PyDict LinAlg Fitter.
Import LinAlg Fitter.

Module FitStep.

Class GLSSolver := {
  gls : mat → nat → mat → vec → res vec;
  gls_length : ∀ C n M r x, gls C n M r = Ok x → length x = n;
  gls_normal : ∀ C n M r x, length C = length M → gls C n M r = Ok x →
    ∃ W, inverse_of C W ∧
         mat_vec (transpose n M) (mat_vec W (vsub r (mat_vec M x))) = repeat 0%R n;
  gls_singular : ∀ C n M r, length C = length M → (∀ W, ¬ inverse_of C W) →
    ∃ msg, gls C n M r = Err (LinAlgError msg);
  gls_errors : ∀ C n M r e, gls C n M r = Err e → ∃ msg, e = LinAlgError msg
}.

Section Fit.
Context `{TimingPhysics} `{GLSSolver}.

(** Add [dx[j]] to the value of the [j]-th free parameter. *)
Definition apply_correction (m : tmodel) (fp : list string) (dx : vec) : tmodel :=
  mkModel (params m)
    (fold_left (λ pm pd, alter (λ q, mkParam (pvalue q + pd.2)%R (pfrozen q)) pd.1 pm)
               (zip fp dx) (pmap m)).

(** The covariance of the combined residuals the step uses. *)
Definition fit_covariance (f : fitter) (use_full : bool) : mat :=
  if use_full then full_cov else diag (map (λ s, s * s)%R (combined_errors (resids_now f))).

(** The weighted least-squares problem of a step, handed to the solver:
    the covariance, one unknown for [Offset] and one per free parameter,
    the design matrix and the combined residuals. *)
Definition gls_problem (f : fitter) (use_full : bool) : res vec :=
  gls (fit_covariance f use_full) (S (length (get_fitparams f)))
      (dm_matrix (get_designmatrix f)) (combined_resids (resids_now f)).

(** One Gauss-Newton step. *)
Definition fit_step (f : fitter) (use_full : bool) : res fitter :=
  let fp := get_fitparams f in
  dx ← gls_problem f use_full;
  let m' := apply_correction (model f) fp (tail dx) in
  Ok (mkFitter m' (fargs f) (resids_init f) (make_combined m' (fargs f))).

Fixpoint fit_toas_iter (maxiter : nat) (f : fitter) (use_full : bool) : res fitter :=
  match maxiter with
  | 0 => Ok f
  | S k => f' ← fit_step f use_full; fit_toas_iter k f' use_full
  end.

(** [fit_toas(full_cov=use_full)] with its default [maxiter=1]. *)
Definition fit_toas (f : fitter) (use_full : bool) : res fitter := fit_toas_iter 1 f use_full.

(** The reported residuals are those of the current parameter values. *)
Definition fitter_consistent (f : fitter) : Prop :=
  resids_now f = make_combined (model f) (fargs f).

(** ** Lemmas *)

Definition upd (d : R) (q : param) : param := mkParam (pvalue q + d)%R (pfrozen q).

Definition alter_step (pm : gmap string param) (pd : string * R) : gmap string param :=
  alter (upd pd.2) pd.1 pm.

Lemma fold_alter_notin (l : list (string * R)) pm p :
  p ∉ l.*1 → fold_left alter_step l pm !! p = pm !! p.
Proof.
  revert pm. induction l as [|[p' d] l IH]; intros pm Hp; simpl in *; [done|].
  rewrite elem_of_cons in Hp. rewrite IH by tauto. unfold alter_step. simpl.
  apply lookup_alter_ne. intros ->. tauto.
Qed.

Lemma fold_alter_in (l : list (string * R)) pm p d :
  NoDup l.*1 → (p, d) ∈ l → fold_left alter_step l pm !! p = upd d <$> pm !! p.
Proof.
  revert pm. induction l as [|[p' d'] l IH]; intros pm Hnd Hin; simpl in *; [set_solver|].
  apply NoDup_cons in Hnd as [Hp' Hnd]. apply elem_of_cons in Hin as [[= -> ->]|Hin].
  - rewrite fold_alter_notin by done. apply lookup_alter_eq.
  - rewrite IH by done. unfold alter_step. simpl. rewrite lookup_alter_ne; [done|].
    intros ->. apply Hp', (list_elem_of_fmap_2 fst _ (p, d)), Hin.
Qed.

Lemma fold_alter_frozen (l : list (string * R)) pm p :
  pfrozen <$> fold_left alter_step l pm !! p = pfrozen <$> pm !! p.
Proof.
  revert pm. induction l as [|[p' d] l IH]; intros pm; simpl; [done|].
  rewrite IH. unfold alter_step. simpl. rewrite lookup_alter.
  case_decide; subst; [|done]. by destruct (pm !! p).
Qed.

Lemma apply_correction_pmap m fp dx :
  pmap (apply_correction m fp dx) = fold_left alter_step (zip fp dx) (pmap m).
Proof. reflexivity. Qed.

Lemma is_free_apply_correction m fp dx p :
  is_free (apply_correction m fp dx) p = is_free m p.
Proof.
  unfold is_free. rewrite apply_correction_pmap.
  pose proof (fold_alter_frozen (zip fp dx) (pmap m) p) as Hf.
  destruct (fold_left _ _ _ !! p), (pmap m !! p); simplify_eq/=; congruence.
Qed.

Lemma get_fitparams_apply f m' args ri rn fp dx :
  m' = apply_correction (model f) fp dx →
  get_fitparams (mkFitter m' args ri rn) = get_fitparams f.
Proof.
  intros ->. unfold get_fitparams. simpl. apply list_filter_iff.
  intros p. by rewrite is_free_apply_correction.
Qed.

Lemma apply_correction_not_free f dx p :
  is_free (model f) p = false →
  pmap (apply_correction (model f) (get_fitparams f) dx) !! p = pmap (model f) !! p.
Proof.
  intros Hp. rewrite apply_correction_pmap. apply fold_alter_notin.
  intros (x & Hx & Hin)%list_elem_of_fmap. destruct x as [p' d]; simpl in Hx; subst p'.
  apply elem_of_zip_l in Hin. unfold get_fitparams in Hin.
  apply list_elem_of_filter in Hin as [Hfree _]. congruence.
Qed.

Lemma fit_step_Ok f fc f' :
  fit_step f fc = Ok f' →
  ∃ dx, gls (fit_covariance f fc) (S (length (get_fitparams f)))
            (dm_matrix (get_designmatrix f)) (combined_resids (resids_now f)) = Ok dx ∧
        f' = mkFitter (apply_correction (model f) (get_fitparams f) (tail dx)) (fargs f)
               (resids_init f)
               (make_combined (apply_correction (model f) (get_fitparams f) (tail dx)) (fargs f)).
Proof.
  unfold fit_step, gls_problem. destruct (gls _ _ _ _) as [dx|e]; simpl; [|discriminate].
  intros [= <-]. eauto.
Qed.

Lemma fit_step_frame f fc f' :
  fit_step f fc = Ok f' →
  fitter_consistent f' ∧ resids_init f' = resids_init f ∧ fargs f' = fargs f ∧
  params (model f') = params (model f) ∧ get_fitparams f' = get_fitparams f ∧
  ∀ p, is_free (model f) p = false → pmap (model f') !! p = pmap (model f) !! p.
Proof.
  intros (dx & _ & ->)%fit_step_Ok. split_and!; try done.
  - by eapply get_fitparams_apply.
  - intros p Hp. by apply apply_correction_not_free.
Qed.

Lemma fit_iter_frame n f fc f' :
  fit_toas_iter n f fc = Ok f' →
  (fitter_consistent f → fitter_consistent f') ∧
  resids_init f' = resids_init f ∧ fargs f' = fargs f ∧
  params (model f') = params (model f) ∧ get_fitparams f' = get_fitparams f ∧
  ∀ p, is_free (model f) p = false → pmap (model f') !! p = pmap (model f) !! p.
Proof.
  revert f. induction n as [|n IH]; intros f; simpl.
  - intros [= <-]. done.
  - destruct (fit_step f fc) as [f1|e] eqn:E; simpl; [|discriminate].
    intros Hf'. destruct (fit_step_frame _ _ _ E) as (Hc1 & Hi1 & Ha1 & Hp1 & Hfp1 & Hfr1).
    destruct (IH f1 Hf') as (Hc & Hi & Ha & Hp & Hfp & Hfr).
    split_and!; try congruence.
    + intros _. by apply Hc.
    + intros p Hfree. rewrite Hfr, Hfr1; [done|done|].
      unfold is_free in *. pose proof (Hfr1 p Hfree) as Hq. by rewrite Hq.
Qed.

Lemma value_of_frozen m m' p :
  pmap m' !! p = pmap m !! p → value_of m' p = value_of m p.
Proof. unfold value_of. by intros ->. Qed.

Lemma fit_toas_step f fc : fit_toas f fc = fit_step f fc.
Proof. unfold fit_toas. simpl. by destruct (fit_step f fc). Qed.

(** [fit_toas()] returns exactly when the solver accepts the problem of
    its one step. *)
Lemma fit_toas_is_ok f fc : is_ok (fit_toas f fc) = is_ok (gls_problem f fc).
Proof. rewrite fit_toas_step. unfold fit_step. by destruct (gls_problem f fc). Qed.

Lemma fit_covariance_length f fc :
  fitter_consistent f →
  length (fit_covariance f fc) = length (dm_matrix (get_designmatrix f)).
Proof.
  intros Hc. rewrite length_designmatrix. unfold fit_covariance. destruct fc.
  - apply full_cov_len.
  - rewrite length_diag, length_map, Hc. apply length_combined_errors_make.
Qed.

(** ** Theorems *)

(** however many iterations [fit_toas] runs, a parameter that is not
    free keeps its value and its [frozen] flag. *)
Theorem fit_frozen_unchanged n f fc f' p :
  fit_toas_iter n f fc = Ok f' →
  is_free (model f) p = false →
  pmap (model f') !! p = pmap (model f) !! p.
Proof. intros Hf Hp. by apply (fit_iter_frame n f fc f' Hf). Qed.

(** a successful [fit_toas] applies a correction [dx] with one entry
    for [Offset] and one per free parameter: [dx] satisfies the normal
    equations of the weighted least-squares problem for the covariance the
    step uses, and each free parameter's value is increased by its entry. *)
Theorem fit_toas_correction f fc f' :
  model_wf (model f) → fitter_consistent f →
  fit_toas f fc = Ok f' →
  ∃ dx, length dx = S (length (get_fitparams f)) ∧
    (∃ W, inverse_of (fit_covariance f fc) W ∧
       mat_vec (transpose (S (length (get_fitparams f))) (dm_matrix (get_designmatrix f)))
         (mat_vec W (vsub (combined_resids (resids_now f))
                          (mat_vec (dm_matrix (get_designmatrix f)) dx)))
       = repeat 0%R (S (length (get_fitparams f)))) ∧
    ∀ j p d, get_fitparams f !! j = Some p → dx !! S j = Some d →
      value_of (model f') p = (value_of (model f) p + d)%R.
Proof.
  intros [Hnd _] Hc. rewrite fit_toas_step. intros Hstep.
  destruct (fit_step_Ok _ _ _ Hstep) as (dx & Hgls & ->).
  exists dx. split_and!; [by eapply gls_length| |].
  - eapply gls_normal; [|exact Hgls]. by apply fit_covariance_length.
  - intros j p d Hj Hd. simpl. unfold value_of. rewrite apply_correction_pmap.
    assert (Hlen : length (tail dx) = length (get_fitparams f)).
    { pose proof (gls_length _ _ _ _ _ Hgls) as Hl. destruct dx; simpl in *; lia. }
    assert (Hsome : is_Some (pmap (model f) !! p)).
    { apply list_elem_of_lookup_2, list_elem_of_filter in Hj as [Hfree _].
      unfold is_free in Hfree. destruct (pmap (model f) !! p); [eauto|discriminate]. }
    rewrite (fold_alter_in _ _ p d).
    + by destruct Hsome as [q ->].
    + rewrite fst_zip by lia. by apply NoDup_filter.
    + apply (list_elem_of_lookup_2 _ j), lookup_zip_Some. by rewrite lookup_tail.
Qed.

(** when the covariance the step uses has no inverse, [fit_toas]
    fails with [LinAlgError] and returns no updated fitter; and every
    failure of [fit_toas] is a [LinAlgError]. *)
Theorem fit_toas_linalg_error f fc :
  fitter_consistent f →
  ((∀ W, ¬ inverse_of (fit_covariance f fc) W) →
     ∃ msg, fit_toas f fc = Err (LinAlgError msg)) ∧
  (∀ e, fit_toas f fc = Err e → ∃ msg, e = LinAlgError msg).
Proof.
  intros Hc. rewrite fit_toas_step. unfold fit_step, gls_problem. split.
  - intros Hsing.
    destruct (gls_singular (fit_covariance f fc) (S (length (get_fitparams f)))
                (dm_matrix (get_designmatrix f)) (combined_resids (resids_now f)))
      as [msg Hmsg]; [by apply fit_covariance_length|done|].
    exists msg. by rewrite Hmsg.
  - intros e. destruct (gls _ _ _ _) as [dx|e'] eqn:E; simpl; [discriminate|].
    intros [= <-]. by eapply gls_errors.
Qed.

Lemma fit_iter_residual_obj_Dm (dm_params : list string) n f fc f' :
  (∀ v v', (∀ p, p ∈ dm_params → v p = v' p) → resid_of Dm v = resid_of Dm v') →
  (∀ p, p ∈ dm_params → is_free (model f) p = false) →
  fitter_consistent f →
  fit_toas_iter n f fc = Ok f' →
  residual_obj (resids_now f') Dm = residual_obj (resids_now f) Dm.
Proof.
  intros Hdep Hfixed Hc Hf.
  destruct (fit_iter_frame n f fc f' Hf) as (Hc' & _ & Ha & _ & _ & Hfr).
  rewrite (Hc' Hc), Hc, !residual_obj_make, Ha. f_equal.
  apply make_resid_obj_ext, Hdep. intros p Hp.
  apply value_of_frozen, Hfr, Hfixed, Hp.
Qed.

Lemma WidebandTOAFitter_init_Ok m args :
  check_args args = Ok () →
  WidebandTOAFitter_init m args = Ok (mkFitter m args (make_combined m args) (make_combined m args)).
Proof. unfold WidebandTOAFitter_init. by intros ->. Qed.

(** if the DM residuals depend only on the parameters [dm_params] and
    none of them is free, then after any number of fitting iterations the
    DM residual object (values, uncertainties, mean subtraction) is the one
    before the fit, so its weighted RMS is unchanged. *)
Theorem fit_dm_unchanged (dm_params : list string) n f fc f' :
  (∀ v v', (∀ p, p ∈ dm_params → v p = v' p) → resid_of Dm v = resid_of Dm v') →
  (∀ p, p ∈ dm_params → is_free (model f) p = false) →
  fitter_consistent f →
  fit_toas_iter n f fc = Ok f' →
  residual_obj (resids_now f') Dm = residual_obj (resids_now f) Dm.
Proof. apply fit_iter_residual_obj_Dm. Qed.

(** fitting keeps the fitter's invariant: the reported residuals are
    recomputed from the current parameter values, the pre-fit residuals
    [resids_init] are never changed, and the arguments, the parameter list
    and the set of free parameters stay as they were. *)
Theorem fit_preserves_invariant n f fc f' :
  fitter_consistent f →
  fit_toas_iter n f fc = Ok f' →
  fitter_consistent f' ∧ resids_init f' = resids_init f ∧ fargs f' = fargs f ∧
  params (model f') = params (model f) ∧ get_fitparams f' = get_fitparams f.
Proof.
  intros Hc Hf. destruct (fit_iter_frame n f fc f' Hf) as (Hc' & ? & ? & ? & ? & _).
  split_and!; auto.
Qed.

Lemma set_fitparams_consistent f names f' :
  fitter_consistent f → set_fitparams f names = Ok f' → fitter_consistent f'.
Proof.
  intros Hc (_ & ->)%set_fitparams_Ok. unfold fitter_consistent in *. simpl.
  rewrite Hc. apply make_combined_ext. intros p. symmetry. apply value_of_set_frozen.
Qed.

(** constructing the fitter with well-formed [additional_args]
    computes the combined residuals once, with one entry per TOA residual
    and per DM residual, the pre-fit and current residuals equal and
    consistent with the model, and each kind's mean subtraction taken from
    [additional_args] (default: on for TOAs, off for DMs); an
    [additional_args] key that is not a residual kind is a configuration
    error. *)
Theorem WidebandTOAFitter_init_spec m args :
  (check_args args = Ok () →
   ∃ f, WidebandTOAFitter_init m args = Ok f ∧ fitter_consistent f ∧
     resids_init f = resids_now f ∧ model f = m ∧
     length (combined_resids (resids_now f)) = nres Toa + nres Dm ∧
     ∀ k, subtract_mean <$> residual_obj (resids_now f) k = Some (subtract_mean_for k args)) ∧
  (∀ l opts, (l, opts) ∈ args → l ∉ ["toa"; "dm"] →
   ∃ l', WidebandTOAFitter_init m args = Err (ConfigError l') ∧ l' ∉ ["toa"; "dm"]).
Proof.
  split.
  - intros Hargs. rewrite (WidebandTOAFitter_init_Ok m args Hargs).
    eexists. split_and!; [done..| |].
    + apply length_combined_resids_make.
    + intros k. simpl resids_now. by rewrite residual_obj_make.
  - intros l opts Hin Hl. unfold WidebandTOAFitter_init, check_args.
    destruct (list_find _ args) as [[i [l' o]]|] eqn:E.
    + apply list_find_Some in E as (_ & Hl' & _). exists l'. by split.
    + apply list_find_None in E. by destruct (proj1 (Forall_forall _ _) E _ Hin).
Qed.

(** when the full covariance is the diagonal of the residual
    variances (no correlation between residuals), the full-covariance fit
    and the weighted fit give the same result. *)
Theorem full_cov_diag_agrees f :
  full_cov = diag (map (λ s, s * s)%R (combined_errors (resids_now f))) →
  fit_toas f true = fit_toas f false.
Proof. intros Hd. rewrite !fit_toas_step. unfold fit_step, gls_problem, fit_covariance. by rewrite Hd. Qed.

End Fit.

End FitStep.
