(* ===== verification/WidebandTests.v ===== *)
(** The tests of the wideband fitter (src/tests/test_widebandTOA_fitting.py)
    as propositions over the fitter model: [test_fitter_init],
    [test_fitter_designmatrix], and the fit and DM assertion of
    [test_fitting_no_full_cov] and [test_fitting_full_cov] (the fit must
    return: an exception fails the test).  The theorems show that each
    assertion holds for every wideband data set (as many DM measurements as
    TOAs), every well-formed timing model that has the fitted parameters,
    and every least-squares solver that accepts the problem, and that the
    fitting tests pass exactly when it does; the comparisons with TEMPO's
    residuals read data files and are not modelled.  The file ends with
    concrete data sets and a solver used by the witnesses. *)

From S2P Require Import Prelude PyDict LinAlg Fitter FitStep.
Import LinAlg Fitter FitStep.

Module WidebandTests.

(** [self.fit_data_name] *)
Definition fit_data_name_test : list string := ["toa"; "dm"].

(** [self.fit_params_lite] *)
Definition fit_params_lite : list string := ["F0"; "F1"; "ELONG"; "ELAT"; "DMJUMP1"; "DMX_0022"].

Section Tests.
Context `{TimingPhysics} `{GLSSolver}.
Variable ntoas : nat.

(** [test_fitter_init] *)
Definition test_fitter_init (m : tmodel) : Prop :=
  ∃ fitter fitter2,
    WidebandTOAFitter_init m [] = Ok fitter ∧
    length (combined_resids (resids_now fitter)) = 2 * ntoas ∧
    WidebandTOAFitter_init m [("toa", [("subtract_mean", false)])] = Ok fitter2 ∧
    subtract_mean <$> residual_obj (resids_now fitter2) Toa = Some false.

(** [test_fitter_designmatrix] *)
Definition test_fitter_designmatrix (m : tmodel) : Prop :=
  ∃ fitter fitter',
    WidebandTOAFitter_init m [] = Ok fitter ∧
    set_fitparams fitter fit_params_lite = Ok fitter' ∧
    (∀ p, p ∈ get_fitparams fitter' ↔ p ∈ fit_params_lite) ∧
    length (dm_matrix (get_designmatrix fitter')) = 2 * ntoas ∧
    ncols (length fit_params_lite + 1) (dm_matrix (get_designmatrix fitter')) ∧
    map fst (dm_labels (get_designmatrix fitter')) = fit_data_name_test ∧
    derivative_params (get_designmatrix fitter') = "Offset" :: get_fitparams fitter'.

(** The fit and the DM assertion of [test_fitting_no_full_cov]
    ([full_cov = false]) and [test_fitting_full_cov] ([full_cov = true]):
    the fitter is built, [fitter.fit_toas(full_cov)] returns (an exception
    fails the test), and [abs(dm_rms_pre - dm_rms_post) < 3e-8].  The
    comparisons with TEMPO's residuals read a data file and are not part
    of the proposition. *)
Definition test_fitting_dm (m : tmodel) (full_cov : bool) : Prop :=
  ∃ fitter fitter',
    WidebandTOAFitter_init m [] = Ok fitter ∧
    fit_toas fitter full_cov = Ok fitter' ∧
    ∃ o o', residual_obj (resids_init fitter') Dm = Some o ∧
            residual_obj (resids_now fitter') Dm = Some o' ∧
            (Rabs (rms_weighted o - rms_weighted o') < 3 / 100000000)%R.

(** [test_fitting_no_full_cov] *)
Definition test_fitting_no_full_cov (m : tmodel) : Prop := test_fitting_dm m false.

(** [test_fitting_full_cov] *)
Definition test_fitting_full_cov (m : tmodel) : Prop := test_fitting_dm m true.

Hypothesis Hwide : nres Toa = ntoas ∧ nres Dm = ntoas.

(** C8: [test_fitter_init] passes for every timing model of a wideband
    data set. *)
Theorem test_fitter_init_passes m : test_fitter_init m.
Proof.
  destruct Hwide as [Ht Hd].
  eexists _, _. split_and!;
    [apply WidebandTOAFitter_init_Ok; reflexivity| |
     apply WidebandTOAFitter_init_Ok; reflexivity|].
  - cbn [resids_now]. rewrite length_combined_resids_make. lia.
  - cbn [resids_now]. by rewrite residual_obj_make.
Qed.

(** C6: [test_fitter_designmatrix] passes for every well-formed timing
    model that has the six parameters of [fit_params_lite]. *)
Theorem test_fitter_designmatrix_passes m :
  model_wf m → Forall (λ p, p ∈ params m) fit_params_lite →
  test_fitter_designmatrix m.
Proof.
  intros Hwf Hall. destruct Hwide as [Ht Hd].
  set (f0 := mkFitter m [] (make_combined m []) (make_combined m [])).
  assert (Hset : set_fitparams f0 fit_params_lite =
                 Ok (mkFitter (set_frozen fit_params_lite m) [] (resids_init f0) (resids_now f0))).
  { unfold set_fitparams. destruct (list_find _ _) as [[i n]|] eqn:E; [|done].
    apply list_find_Some in E as (Hi & Hn & _). apply list_elem_of_lookup_2 in Hi.
    exfalso. apply Hn. exact (proj1 (Forall_forall _ _) Hall n Hi). }
  pose proof (get_fitparams_set_frozen f0 fit_params_lite [] (resids_init f0) (resids_now f0)
                Hwf Hall) as Hfp.
  assert (Hlen : length (get_fitparams (mkFitter (set_frozen fit_params_lite m) []
                   (resids_init f0) (resids_now f0))) = length fit_params_lite).
  { apply Permutation_length, NoDup_Permutation; [|decide_concrete|done].
    apply NoDup_filter, Hwf. }
  exists f0, (mkFitter (set_frozen fit_params_lite m) [] (resids_init f0) (resids_now f0)).
  split_and!; [by apply WidebandTOAFitter_init_Ok|exact Hset|exact Hfp|..].
  - rewrite length_designmatrix. lia.
  - rewrite <- Hlen, Nat.add_1_r. apply ncols_designmatrix.
  - done.
  - done.
Qed.

(** The fit of the test returns exactly when the solver accepts the
    least-squares problem of the constructed fitter, and then the DM
    assertion holds when the DM residuals depend only on parameters that
    are not fitted. *)
Lemma test_fitting_dm_iff (dm_params : list string) m fc :
  (∀ v v', (∀ p, p ∈ dm_params → v p = v' p) → resid_of Dm v = resid_of Dm v') →
  (∀ p, p ∈ dm_params → is_free m p = false) →
  test_fitting_dm m fc ↔
    ∃ f, WidebandTOAFitter_init m [] = Ok f ∧ is_ok (gls_problem f fc) = true.
Proof.
  intros Hdep Hfixed. split.
  - intros (f & f' & Hi & Hfit & _). exists f. split; [done|].
    by rewrite <- fit_toas_is_ok, Hfit.
  - intros (f & Hi & Hok). rewrite <- fit_toas_is_ok in Hok.
    destruct (fit_toas f fc) as [f'|] eqn:Hfit; [|discriminate].
    exists f, f'. split_and!; [done|done|].
    rewrite (WidebandTOAFitter_init_Ok m [] eq_refl) in Hi. injection Hi as <-.
    unfold fit_toas in Hfit.
    pose proof (fit_iter_residual_obj_Dm dm_params 1 (mkFitter m [] (make_combined m [])
                  (make_combined m [])) fc f' Hdep Hfixed eq_refl Hfit) as Hdm.
    destruct (fit_iter_frame 1 _ fc f' Hfit) as (_ & Hi & _).
    rewrite Hdm, Hi. cbn [resids_now resids_init]. rewrite residual_obj_make.
    eexists _, _. split_and!; [done|done|].
    rewrite Rminus_diag, Rabs_R0. lra.
Qed.

(** C7: [test_fitting_no_full_cov] and [test_fitting_full_cov] pass, the
    fit returning and the DM weighted RMS exactly unchanged, whenever the
    solver accepts the least-squares problem of the constructed fitter and
    the DM residuals depend only on parameters that are not fitted. *)
Theorem test_fitting_dm_passes (dm_params : list string) m :
  (∀ v v', (∀ p, p ∈ dm_params → v p = v' p) → resid_of Dm v = resid_of Dm v') →
  (∀ p, p ∈ dm_params → is_free m p = false) →
  (∀ f fc, WidebandTOAFitter_init m [] = Ok f → is_ok (gls_problem f fc) = true) →
  test_fitting_no_full_cov m ∧ test_fitting_full_cov m.
Proof.
  intros Hdep Hfixed Hok.
  enough (Hall : ∀ fc, test_fitting_dm m fc) by (split; apply Hall).
  intros fc. apply (test_fitting_dm_iff dm_params m fc Hdep Hfixed).
  exists (mkFitter m [] (make_combined m []) (make_combined m [])).
  split; [by apply WidebandTOAFitter_init_Ok|]. apply Hok. by apply WidebandTOAFitter_init_Ok.
Qed.

End Tests.

(** ** A concrete data set and solver *)

(** A data set with no TOAs: the [Offset] column is 1 for TOAs. *)
Definition empty_toas : TimingPhysics.
Proof.
  refine {| nres _ := 0; resid_of _ _ := []; sigma_of _ := []; deriv_of _ _ _ := [];
            offset_of k := match k with Toa => 1%R | Dm => 0%R end; full_cov := [] |};
    reflexivity.
Defined.

Lemma map_const_seq (c : R) (l : list nat) : map (λ _, c) l = repeat c (length l).
Proof. induction l; simpl; congruence. Qed.

(** The least-squares solver of a problem without rows: the zero
    correction (every correction solves it); a problem with rows is
    reported as a [LinAlgError]. *)
Definition rowless_gls (C : mat) (n : nat) (M : mat) (r : vec) : res vec :=
  match M with [] => Ok (repeat 0%R n) | _ :: _ => Err (LinAlgError "SVD did not converge") end.

Definition rowless_solver : GLSSolver.
Proof.
  refine {| gls := rowless_gls |}.
  - intros C n M r x. destruct M; simpl; [|discriminate]. intros [= <-]. apply repeat_length.
  - intros C n M r x Hl. destruct M; simpl; [|discriminate]. intros [= <-].
    destruct C; [|discriminate]. exists []. split; [reflexivity|].
    unfold mat_vec, transpose. rewrite map_map. simpl.
    rewrite map_const_seq, length_seq. reflexivity.
  - intros C n M r Hl Hsing. destruct M; simpl; [|eauto].
    destruct C; [|discriminate]. exfalso. apply (Hsing []). reflexivity.
  - intros C n M r e. destruct M; simpl; [discriminate|]. intros [= <-]. eauto.
Defined.

(** A timing model with a free [F0 = 1] and a frozen [DM = 0]. *)
Definition toy_model : tmodel :=
  mkModel ["F0"; "DM"] (<["F0" := mkParam 1 false]> (<["DM" := mkParam 0 true]> ∅)).

Definition toy_fitter : fitter :=
  mkFitter toy_model [] (@make_combined empty_toas toy_model [])
           (@make_combined empty_toas toy_model []).

(** A timing model with the six parameters of [fit_params_lite] and [DM]. *)
Definition lite_model : tmodel :=
  mkModel (fit_params_lite ++ ["DM"])
    (list_to_map (map (λ p, (p, mkParam 0 true)) (fit_params_lite ++ ["DM"]))).

(** [DM] is frozen in [toy_model]. *)
Lemma toy_DM_frozen p : p ∈ ["DM"] → is_free toy_model p = false.
Proof. intros ->%list_elem_of_singleton. reflexivity. Qed.

(** ** Witnesses *)

Section Witnesses.
#[local] Existing Instance empty_toas.
#[local] Existing Instance rowless_solver.

Lemma empty_toas_dm_dep v v' : (∀ p, p ∈ ["DM"] → v p = v' p) → resid_of Dm v = resid_of Dm v'.
Proof. done. Qed.

Definition toy_fit : fitter :=
  match fit_toas toy_fitter false with Ok f' => f' | Err _ => toy_fitter end.

Definition toy_set : fitter :=
  match set_fitparams toy_fitter ["F0"] with Ok f' => f' | Err _ => toy_fitter end.

Lemma fitparams_roundtrip_witness :
  ∀ p, p ∈ get_fitparams toy_set ↔ p ∈ ["F0"].
Proof. apply (fitparams_roundtrip toy_fitter ["F0"] toy_set); [decide_concrete|reflexivity]. Defined.

Lemma set_fitparams_unknown_witness :
  ∃ n', set_fitparams toy_fitter ["F2"] = Err (ConfigError n') ∧ n' ∈ ["F2"] ∧
        n' ∉ params (model toy_fitter).
Proof. apply (set_fitparams_unknown toy_fitter ["F2"] "F2"); decide_concrete. Defined.

Lemma combined_labels_roundtrip_witness :
  ∃ k o, (k, o) ∈ residual_objs (resids_now toy_fitter) ∧ rkind_label k = "dm" ∧
    0 - 0 = length (resids o) ∧
    ∀ i, i < length (resids o) → combined_resids (resids_now toy_fitter) !! (0 + i) = resids o !! i.
Proof. apply combined_labels_roundtrip. decide_concrete. Defined.

Lemma fit_dm_unchanged_witness :
  residual_obj (resids_now toy_fit) Dm = residual_obj (resids_now toy_fitter) Dm.
Proof.
  apply (fit_dm_unchanged ["DM"] 1 toy_fitter false toy_fit).
  - apply empty_toas_dm_dep.
  - apply toy_DM_frozen.
  - reflexivity.
  - reflexivity.
Defined.

Lemma fit_frozen_unchanged_witness :
  pmap (model toy_fit) !! "DM" = pmap (model toy_fitter) !! "DM".
Proof. apply (fit_frozen_unchanged 1 toy_fitter false toy_fit "DM"); reflexivity. Defined.

Lemma fit_toas_correction_witness :
  ∃ dx, length dx = S (length (get_fitparams toy_fitter)) ∧
    (∃ W, inverse_of (fit_covariance toy_fitter false) W ∧
       mat_vec (transpose (S (length (get_fitparams toy_fitter))) (dm_matrix (get_designmatrix toy_fitter)))
         (mat_vec W (vsub (combined_resids (resids_now toy_fitter))
                          (mat_vec (dm_matrix (get_designmatrix toy_fitter)) dx)))
       = repeat 0%R (S (length (get_fitparams toy_fitter)))) ∧
    ∀ j p d, get_fitparams toy_fitter !! j = Some p → dx !! S j = Some d →
      value_of (model toy_fit) p = (value_of (model toy_fitter) p + d)%R.
Proof. apply fit_toas_correction; [decide_concrete|reflexivity|reflexivity]. Defined.

Lemma fit_toas_linalg_error_witness :
  ∀ e, fit_toas toy_fitter true = Err e → ∃ msg, e = LinAlgError msg.
Proof. apply (fit_toas_linalg_error toy_fitter true). reflexivity. Defined.

Lemma fit_preserves_invariant_witness :
  fitter_consistent toy_fit ∧ resids_init toy_fit = resids_init toy_fitter ∧
  fargs toy_fit = fargs toy_fitter ∧ params (model toy_fit) = params (model toy_fitter) ∧
  get_fitparams toy_fit = get_fitparams toy_fitter.
Proof. apply (fit_preserves_invariant 1 toy_fitter false toy_fit); reflexivity. Defined.

Lemma full_cov_diag_agrees_witness : fit_toas toy_fitter true = fit_toas toy_fitter false.
Proof. apply full_cov_diag_agrees. reflexivity. Defined.

Lemma WidebandTOAFitter_init_spec_witness :
  ∃ f, WidebandTOAFitter_init toy_model [] = Ok f ∧ fitter_consistent f ∧
     resids_init f = resids_now f ∧ model f = toy_model ∧
     length (combined_resids (resids_now f)) = nres Toa + nres Dm ∧
     ∀ k, subtract_mean <$> residual_obj (resids_now f) k = Some (subtract_mean_for k []).
Proof. apply (WidebandTOAFitter_init_spec toy_model []). reflexivity. Defined.

Lemma test_fitter_init_passes_witness : test_fitter_init 0 toy_model.
Proof. apply test_fitter_init_passes. split; reflexivity. Defined.

Lemma test_fitter_designmatrix_passes_witness : test_fitter_designmatrix 0 lite_model.
Proof. apply test_fitter_designmatrix_passes; [split; reflexivity|decide_concrete|decide_concrete]. Defined.

Lemma test_fitting_dm_passes_witness :
  test_fitting_no_full_cov toy_model ∧ test_fitting_full_cov toy_model.
Proof.
  apply (test_fitting_dm_passes ["DM"]).
  - apply empty_toas_dm_dep.
  - apply toy_DM_frozen.
  - intros f fc Hi. rewrite (WidebandTOAFitter_init_Ok toy_model [] eq_refl) in Hi. injection Hi as <-.
    destruct fc; vm_compute; reflexivity.
Defined.

End Witnesses.

End WidebandTests.
