(* ===== verification/PardictTest.v ===== *)
(** The test of src/tests/test_pardict.py, [test_derived_params]: for every
    par file the glob finds and for [components] True and False, load the
    model with [get_model] inside a bare [try]/[except:], and when it loads,
    check that [m.as_dict(components=...)] is a [dict].

    The model loader is not part of this repository; it is the interface
    [ModelLoading] (the model-loading collaborator of the specification),
    and the theorems hold for every loader.  A test run ends in one of
    pytest's outcomes; the parametrized runs of the test are
    [test_derived_params_runs]. *)

From S2P Require Import Prelude.

Module PardictTest.

(** The outcome of one run of a pytest test. *)
Inductive outcome :=
  | Passed
  | Failed                  (* an [assert] is false *)
  | Skipped
  | Errored (e : py_error). (* an exception escapes the test *)

(** A Python value as far as [isinstance(out, dict)] looks at it. *)
Inductive pyobj :=
  | PyDictObj (keys : list string)
  | PyOther (type_name : string).

(** [isinstance(out, dict)] *)
Definition is_dict (o : pyobj) : bool :=
  match o with PyDictObj _ => true | PyOther _ => false end.

(** [pint.models.get_model(parname)] and [m.as_dict(components=...)]. *)
Class ModelLoading := {
  timing_model : Type;
  get_model : string → res timing_model;
  as_dict : timing_model → bool → res pyobj
}.

Section Test.
Context `{ModelLoading}.

(** [test_derived_params(parname, components)] *)
Definition test_derived_params (parname : string) (components : bool) : outcome :=
  let readin := match get_model parname with Ok m => Some m | Err _ => None end in
  match readin with
  | None => Passed
  | Some m =>
      match as_dict m components with
      | Err e => Errored e
      | Ok out => if is_dict out then Passed else Failed
      end
  end.

(** The runs of the two [parametrize] marks: every par file, each with
    [components] True and False; pytest skips a test whose parameter set
    is empty. *)
Definition test_derived_params_runs (parnames : list string) : list outcome :=
  match parnames with
  | [] => [Skipped]
  | _ => parnames ≫= λ p, [test_derived_params p true; test_derived_params p false]
  end.

(** The test session succeeds: no run fails or errors. *)
Definition session_ok (outs : list outcome) : Prop := Forall (λ o, o = Passed ∨ o = Skipped) outs.

(** ** Lemmas *)

Lemma test_derived_params_ok p c :
  test_derived_params p c = Passed ↔
    ∀ m, get_model p = Ok m → ∃ keys, as_dict m c = Ok (PyDictObj keys).
Proof.
  unfold test_derived_params. destruct (get_model p) as [m|e]; cbn.
  - split.
    + intros Ht m' [= <-]. destruct (as_dict m c) as [[keys|n]|e]; by eauto.
    + intros Hm. destruct (Hm m eq_refl) as [keys ->]. done.
  - split; [by intros _ m'|done].
Qed.

Lemma test_derived_params_not_skipped p c : test_derived_params p c ≠ Skipped.
Proof.
  unfold test_derived_params. destruct (get_model p); cbn; [|done].
  destruct (as_dict _ c) as [o|]; [by destruct (is_dict o)|done].
Qed.

Lemma session_ok_run p c :
  test_derived_params p c = Passed ∨ test_derived_params p c = Skipped ↔
  test_derived_params p c = Passed.
Proof. pose proof (test_derived_params_not_skipped p c). naive_solver. Qed.

(** ** Theorems *)

(** C19: the session of [test_derived_params] succeeds exactly when, for
    every par file that loads, [as_dict] returns a [dict] for both values
    of [components]; since the bare [except:] swallows every failure of
    [get_model], the session also succeeds when no par file loads at all. *)
Theorem test_derived_params_session parnames :
  (session_ok (test_derived_params_runs parnames) ↔
     ∀ p m c, p ∈ parnames → get_model p = Ok m → ∃ keys, as_dict m c = Ok (PyDictObj keys)) ∧
  ((∀ p, p ∈ parnames → ∃ e, get_model p = Err e) →
     session_ok (test_derived_params_runs parnames)).
Proof.
  assert (Hiff : session_ok (test_derived_params_runs parnames) ↔
     ∀ p m c, p ∈ parnames → get_model p = Ok m → ∃ keys, as_dict m c = Ok (PyDictObj keys)).
  { unfold session_ok, test_derived_params_runs. destruct parnames as [|p0 ps].
    - split; [intros _ p m c Hp; set_solver|by repeat constructor].
    - rewrite Forall_forall. split.
      + intros Hall p m c Hp Hm.
        assert (Hc : test_derived_params p c = Passed).
        { apply session_ok_run, Hall, list_elem_of_bind. exists p.
          split; [|done]. destruct c; set_solver. }
        by apply (proj1 (test_derived_params_ok p c) Hc).
      + intros Hall o (p & Ho & Hp)%list_elem_of_bind. left.
        apply elem_of_cons in Ho as [->|Ho%list_elem_of_singleton]; try subst o;
          apply test_derived_params_ok; intros m Hm; by apply (Hall p m).
  }
  split; [done|]. intros Herr. apply Hiff. intros p m c Hp Hm.
  destruct (Herr p Hp) as [e He]. congruence.
Qed.

End Test.

(** A loader for which only [good.par] loads, and its [as_dict] is a dict. *)
Definition one_good_loader : ModelLoading := {|
  timing_model := string;
  get_model p := if decide (p = "good.par") then Ok p else Err (ValueError "cannot read par file");
  as_dict _ _ := Ok (PyDictObj ["PSR"; "F0"])
|}.

Lemma test_derived_params_session_witness :
  @session_ok (@test_derived_params_runs one_good_loader ["good.par"; "bad.par"]).
Proof.
  apply (proj1 (@test_derived_params_session one_good_loader ["good.par"; "bad.par"])).
  intros p m c _ _. by exists ["PSR"; "F0"].
Defined.

End PardictTest.
